(** * m3-pyapi: the client core of the M3 microservice API

    A shallow embedding of [m3_pyapi/models.py] and of the client core of
    [m3_pyapi/microservices.py], with the properties of the deserializer
    [from_dict], the projection [properties], the status mapper
    [handle_status] and the session handling of [Microservice]. *)

From Stdlib Require Import String Ascii List ZArith Bool Permutation Lia.
From Stdlib Require Import Floats.SpecFloat.
From Stdlib.Strings Require Byte.
Import ListNotations.
Open Scope string_scope.
Open Scope list_scope.

Set Implicit Arguments.
Set Warnings "-register-all".

(** ** Python values *)

(** The objects the code handles: what [json] parsing produces ([None],
    booleans, numbers, [str], [list], [dict] with [str] keys) and instances
    of the dataclasses of [models.py].  A [dict] keeps its items in insertion
    order; an instance keeps one slot per declared field, in declaration
    order, under the name of its class. *)
Inductive value : Type :=
| VNone
| VBool (b : bool)
| VInt (n : Z)
| VFloat (x : spec_float)
| VStr (s : string)
| VList (elements : list value)
| VDict (items : list (string * value))
| VInstance (class_name : string) (slots : list (string * value)).

(** Declared types, as they occur in the annotations of [models.py]: [str],
    [float], [int], [List[T]] and the dataclasses themselves.  A dataclass is
    given by its name and its fields in declaration order; every field of
    [models.py] is declared with the default [None]. *)
Inductive pytype : Type :=
| Tstr
| Tfloat
| Tint
| TList (element : pytype)
| TDataclass (name : string) (class_fields : list (string * pytype)).

(** ** Exceptions *)

Record Response : Type := {
  status_code : Z;
  content : list Byte.byte;
  json_body : option value
}.

Inductive exn : Type :=
| AuthenticationError (client_secret : string)
| AuthenticationMissingError
| BadRequestError (message : string)
| NotFoundError (message : string)
| TimeoutError
| Exception (response : Response)
| TypeError
| AttributeError
| KeyError (key : string)
| IndexError
| UnicodeDecodeError
| JSONDecodeError
| FileNotFoundError (path : string)
| ConnectionError.

Inductive result (A : Type) : Type :=
| Ok (a : A)
| Raise (e : exn).
Arguments Ok {A} a.
Arguments Raise {A} e.

Definition rbind {A B} (r : result A) (k : A -> result B) : result B :=
  match r with
  | Ok a => k a
  | Raise e => Raise e
  end.

Declare Scope result_scope.
Delimit Scope result_scope with result.
Notation "x <- r ;; k" := (rbind r (fun x => k))
  (at level 61, r at next level, right associativity) : result_scope.

(** The message of an exception of [microservices.py], as the [__init__] of
    its class formats it; the messages of the others are left out. *)
Definition exn_message (e : exn) : option string :=
  match e with
  | AuthenticationError client_secret =>
      Some ("Authentication error, check client secret: " ++ client_secret)%string
  | AuthenticationMissingError => Some "Authorization required"
  | BadRequestError message => Some ("Malformed request: " ++ message)%string
  | NotFoundError message => Some ("Not found: " ++ message)%string
  | TimeoutError => Some "Gateway timeout"
  | _ => None
  end.

(** ** Dictionaries *)

Section Dict.
Variable V : Type.

(** [d.get(key)] *)
Fixpoint dict_get (key : string) (d : list (string * V)) : option V :=
  match d with
  | [] => None
  | (k, v) :: rest => if String.eqb k key then Some v else dict_get key rest
  end.

(** [d[key] = v]: an existing key keeps its position. *)
Fixpoint dict_set (key : string) (v : V) (d : list (string * V))
  : list (string * V) :=
  match d with
  | [] => [(key, v)]
  | (k, w) :: rest =>
      if String.eqb k key then (k, v) :: rest
      else (k, w) :: dict_set key v rest
  end.

(** [{k: v for k, v in items}] *)
Definition dict_of (items : list (string * V)) : list (string * V) :=
  fold_left (fun d kv => dict_set (fst kv) (snd kv) d) items [].

(** [key in d] *)
Definition dict_has (key : string) (d : list (string * V)) : bool :=
  match dict_get key d with
  | Some _ => true
  | None => false
  end.

Definition keys (d : list (string * V)) : list string := map fst d.
End Dict.

(** ** models.py *)

(** [fields(dtype)] of [dataclasses]: a [TypeError] for anything that is not a
    dataclass. *)
Definition fields (dtype : pytype) : result (list (string * pytype)) :=
  match dtype with
  | TDataclass _ class_fields => Ok class_fields
  | _ => Raise TypeError
  end.

(** The call of the dataclass [dtype] with the keyword arguments [kwargs],
    for a dataclass whose fields all default to [None]: an argument that
    names no field is a [TypeError]. *)
Definition construct (dtype : pytype) (kwargs : list (string * value))
  : result value :=
  match dtype with
  | TDataclass name class_fields =>
      if forallb (fun k => dict_has k class_fields) (keys kwargs)
      then Ok (VInstance name
                 (map (fun f => (fst f,
                                 match dict_get (fst f) kwargs with
                                 | Some v => v
                                 | None => VNone
                                 end)) class_fields))
      else Raise TypeError
  | _ => Raise TypeError
  end.

(** [data.items()] *)
Definition items_of (data : value) : result (list (string * value)) :=
  match data with
  | VDict items => Ok items
  | _ => Raise AttributeError
  end.

(** [from_dict]: the body of the [try] is evaluated to a [result]; the bare
    [except] turns every exception into [data].  The dict comprehension walks
    [data.items()] in order, looks the key up in [field_map] (a [KeyError]
    when it is not declared) and converts the value at the declared type. *)
Fixpoint from_dict (dtype : pytype) (data : value) {struct data} : value :=
  let attempt : result value :=
    match fields dtype with
    | Raise e => Raise e
    | Ok fs =>
        let field_map := dict_of fs in
        match data with
        | VDict items =>
            let comprehension :=
              (fix comprehension (its : list (string * value))
                   (acc : list (string * value))
                 : result (list (string * value)) :=
                 match its with
                 | [] => Ok acc
                 | (key, val) :: rest =>
                     match dict_get key field_map with
                     | None => Raise (KeyError key)
                     | Some ftype =>
                         comprehension rest
                           (dict_set key (from_dict ftype val) acc)
                     end
                 end) in
            match comprehension items [] with
            | Raise e => Raise e
            | Ok kwargs => construct dtype kwargs
            end
        | _ => Raise AttributeError
        end
    end in
  match attempt with
  | Ok instance => instance
  | Raise _ => data
  end.

(** The same function, statement by statement: the comprehension of line 12,
    the body of the [try], and the [except]. *)
Section Comprehension.
Variable field_map : list (string * pytype).

Fixpoint comprehension (its acc : list (string * value))
  : result (list (string * value)) :=
  match its with
  | [] => Ok acc
  | (key, val) :: rest =>
      match dict_get key field_map with
      | None => Raise (KeyError key)
      | Some ftype =>
          comprehension rest (dict_set key (from_dict ftype val) acc)
      end
  end.

(** What the comprehension stores under a key. *)
Definition converted (kv : string * value) : string * value :=
  (fst kv,
   match dict_get (fst kv) field_map with
   | Some ftype => from_dict ftype (snd kv)
   | None => snd kv
   end).
End Comprehension.

Definition from_dict_try (dtype : pytype) (data : value) : result value :=
  (fs <- fields dtype ;;
   its <- items_of data ;;
   kwargs <- comprehension (dict_of fs) its [] ;;
   construct dtype kwargs)%result.

(** [isinstance(v, dict)] *)
Definition is_mapping (v : value) : bool :=
  match v with
  | VDict _ => true
  | _ => false
  end.

(** The slot a declared field gets from the items of a [dict]: the converted
    value when the field is present, [None] when it is not. *)
Definition slot_of (items : list (string * value)) (f : string * pytype)
  : string * value :=
  (fst f,
   match dict_get (fst f) items with
   | Some val => from_dict (snd f) val
   | None => VNone
   end).

(** [asdict] of [dataclasses]: instances become dicts, lists and dicts are
    walked, anything else is copied. *)
Fixpoint _asdict_inner (obj : value) : value :=
  match obj with
  | VInstance _ slots =>
      VDict ((fix each (l : list (string * value)) : list (string * value) :=
                match l with
                | [] => []
                | (name, v) :: rest => (name, _asdict_inner v) :: each rest
                end) slots)
  | VList elements =>
      VList ((fix each (l : list value) : list value :=
                match l with
                | [] => []
                | v :: rest => _asdict_inner v :: each rest
                end) elements)
  | VDict items =>
      VDict ((fix each (l : list (string * value)) : list (string * value) :=
                match l with
                | [] => []
                | (k, v) :: rest => (k, _asdict_inner v) :: each rest
                end) items)
  | _ => obj
  end.

(** The item [asdict] makes of a slot. *)
Definition copied (kv : string * value) : string * value :=
  (fst kv, _asdict_inner (snd kv)).

Definition asdict (obj : value) : result value :=
  match obj with
  | VInstance _ _ => Ok (_asdict_inner obj)
  | _ => Raise TypeError
  end.

(** [v is not None] *)
Definition is_not_None (v : value) : bool :=
  match v with
  | VNone => false
  | _ => true
  end.

(** The body of the property [properties]:
    [{k: v for k, v in asdict(self).items() if v is not None}]. *)
Definition non_null_projection (self : value) : result value :=
  (d <- asdict self ;;
   its <- items_of d ;;
   Ok (VDict (dict_of (filter (fun kv => is_not_None (snd kv)) its))))%result.

Definition CachedAncillaryDatum : pytype :=
  TDataclass "CachedAncillaryDatum"
    [ ("uuid", Tstr); ("imaged_moment_uuid", Tstr);
      ("latitude", Tfloat); ("longitude", Tfloat);
      ("depth_meters", Tfloat); ("altitude_meters", Tfloat);
      ("crs", Tstr);
      ("salinity", Tfloat); ("temperature_celsius", Tfloat);
      ("oxygen", Tfloat); ("pressure_dbar", Tfloat);
      ("light_transmission", Tfloat);
      ("x", Tfloat); ("y", Tfloat); ("z", Tfloat);
      ("pose_position_units", Tstr);
      ("phi", Tfloat); ("theta", Tfloat); ("psi", Tfloat) ].

(** [self.properties]: the property is declared by [CachedAncillaryDatum]
    alone; any other object has no such attribute. *)
Definition properties (self : value) : result value :=
  match self with
  | VInstance class_name _ =>
      if String.eqb class_name "CachedAncillaryDatum"
      then non_null_projection self
      else Raise AttributeError
  | _ => Raise AttributeError
  end.

Definition ImageListing : pytype :=
  TDataclass "ImageListing"
    [ ("cameraId", Tstr); ("deploymentId", Tstr); ("files", TList Tstr) ].

Definition ImageParams : pytype :=
  TDataclass "ImageParams"
    [ ("uri", Tstr); ("cameraId", Tstr); ("deploymentId", Tstr);
      ("name", Tstr) ].

Definition Media : pytype :=
  TDataclass "Media"
    [ ("video_sequence_uuid", Tstr); ("video_reference_uuid", Tstr);
      ("video_uuid", Tstr); ("video_sequence_name", Tstr);
      ("camera_id", Tstr); ("video_name", Tstr); ("uri", Tstr);
      ("start_timestamp", Tstr); ("duration_millis", Tint);
      ("container", Tstr); ("video_codec", Tstr); ("audio_codec", Tstr);
      ("width", Tint); ("height", Tint); ("frame_rate", Tfloat);
      ("size_bytes", Tint); ("description", Tstr); ("sha512", Tstr) ].

Definition CachedVideoReferenceInfo : pytype :=
  TDataclass "CachedVideoReferenceInfo"
    [ ("mission_contact", Tstr); ("platform_name", Tstr);
      ("video_reference_uuid", Tstr); ("mission_id", Tstr);
      ("last_updated_time", Tstr); ("uuid", Tstr) ].

Definition Association : pytype :=
  TDataclass "Association"
    [ ("link_name", Tstr); ("link_value", Tstr); ("to_concept", Tstr);
      ("mime_type", Tstr); ("uuid", Tstr) ].

Definition ImageReference : pytype :=
  TDataclass "ImageReference"
    [ ("description", Tstr); ("url", Tstr); ("height_pixels", Tint);
      ("width_pixels", Tint); ("format", Tstr); ("uuid", Tstr) ].

Definition Observation : pytype :=
  TDataclass "Observation"
    [ ("observation_uuid", Tstr); ("concept", Tstr); ("observer", Tstr);
      ("observation_timestamp", Tstr); ("video_reference_uuid", Tstr);
      ("imaged_moment_uuid", Tstr); ("elapsed_time_millis", Tint);
      ("recorded_timestamp", Tstr); ("group", Tstr); ("activity", Tstr);
      ("associations", TList Association);
      ("image_references", TList ImageReference) ].

Definition ImagedMoment : pytype :=
  TDataclass "ImagedMoment"
    [ ("recorded_date", Tstr); ("timecode", Tstr);
      ("video_reference_uuid", Tstr);
      ("observations", TList Observation);
      ("image_references", TList ImageReference);
      ("ancillary_data", CachedAncillaryDatum);
      ("last_updated_time", Tstr); ("uuid", Tstr) ].

(** A response body for [get_annotation]: an observation with two
    associations. *)
Definition eating : value :=
  VDict [("link_name", VStr "eating"); ("to_concept", VStr "Euphausia")].

Definition resting : value :=
  VDict [("link_name", VStr "resting on"); ("to_concept", VStr "sediment")].

Definition observation_data : value :=
  VDict [("concept", VStr "Aegina"); ("associations", VList [eating; resting])].

(** ** microservices.py: strings and bytes *)

(** [s.split(sep)] for a separator of one character. *)
Fixpoint split (sep : ascii) (s : string) : list string :=
  match s with
  | EmptyString => [EmptyString]
  | String c rest =>
      if Ascii.eqb c sep then EmptyString :: split sep rest
      else match split sep rest with
           | [] => [String c EmptyString]
           | part :: parts => String c part :: parts
           end
  end.

(** [bool(s)] for a [str] *)
Definition nonempty (s : string) : bool :=
  match s with
  | EmptyString => false
  | String _ _ => true
  end.

(** [s[-1]] *)
Fixpoint last_char (s : string) : result ascii :=
  match s with
  | EmptyString => Raise IndexError
  | String c EmptyString => Ok c
  | String _ rest => last_char rest
  end.

(** [b.decode()]: strict UTF-8.  A [str] is kept as the bytes of its UTF-8
    encoding, so decoding checks that the bytes are well formed (no stray
    continuation byte, no overlong form, no surrogate, nothing above
    U+10FFFF) and keeps them. *)
Definition in_range (lo hi : N) (b : Byte.byte) : bool :=
  (N.leb lo (Byte.to_N b) && N.leb (Byte.to_N b) hi)%bool.

Definition continuation : Byte.byte -> bool := in_range 128 191.

Fixpoint utf8_well_formed (bs : list Byte.byte) : bool :=
  match bs with
  | [] => true
  | b0 :: t0 =>
      if in_range 0 127 b0 then utf8_well_formed t0
      else
        match t0 with
        | [] => false
        | b1 :: t1 =>
            if in_range 194 223 b0 then continuation b1 && utf8_well_formed t1
            else
              match t1 with
              | [] => false
              | b2 :: t2 =>
                  if in_range 224 239 b0 then
                    (if in_range 224 224 b0 then in_range 160 191 b1
                     else if in_range 237 237 b0 then in_range 128 159 b1
                     else continuation b1)
                    && continuation b2 && utf8_well_formed t2
                  else
                    match t2 with
                    | [] => false
                    | b3 :: t3 =>
                        in_range 240 244 b0
                        && (if in_range 240 240 b0 then in_range 144 191 b1
                            else if in_range 244 244 b0
                                 then in_range 128 143 b1
                                 else continuation b1)
                        && continuation b2 && continuation b3
                        && utf8_well_formed t3
                    end
              end
        end
  end.

Definition decode (b : list Byte.byte) : result string :=
  if utf8_well_formed b then Ok (string_of_list_byte b)
  else Raise UnicodeDecodeError.

(** ** microservices.py: the status mapper *)

Definition handle_status (response : Response) : result unit :=
  if (status_code response =? 200)%Z then Ok tt
  else if (status_code response =? 400)%Z then
    (message <- decode (content response) ;;
     Raise (BadRequestError message))%result
  else if (status_code response =? 404)%Z then
    (message <- decode (content response) ;;
     Raise (NotFoundError message))%result
  else if (status_code response =? 504)%Z then Raise TimeoutError
  else Raise (Exception response).

(** ** microservices.py: the base class *)

Record Microservice : Type := {
  _base_url : string;
  _jwt : value
}.

(** [Microservice.__init__]: the subscript [base_url[-1]] is evaluated before
    either attribute is assigned. *)
Definition __init__ (base_url : string) : result Microservice :=
  (c <- last_char base_url ;;
   Ok {| _base_url := base_url ++ (if Ascii.eqb c "/" then "" else "/");
         _jwt := VStr "" |})%result.

Definition url_to (self : Microservice) (endpoint : string) : string :=
  let endpoint_parts := filter nonempty (split "/" endpoint) in
  _base_url self ++ String.concat "/" endpoint_parts.

(** [self._jwt != '']: only the empty [str] equals [''] *)
Definition authenticated (self : Microservice) : bool :=
  match _jwt self with
  | VStr EmptyString => false
  | _ => true
  end.

(** The segments [url_to] keeps: [filter(bool, endpoint.split('/'))]. *)
Definition segments (endpoint : string) : list string :=
  filter nonempty (split "/" endpoint).

(** [c in s] *)
Fixpoint has_char (c : ascii) (s : string) : bool :=
  match s with
  | EmptyString => false
  | String c' rest => Ascii.eqb c' c || has_char c rest
  end.

(** Two spellings of a path that differ only in leading, trailing or
    repeated separators. *)
Inductive sep_variant : string -> string -> Prop :=
| sv_refl p : sep_variant p p
| sv_sym p q : sep_variant p q -> sep_variant q p
| sv_trans p q r : sep_variant p q -> sep_variant q r -> sep_variant p r
| sv_leading p : sep_variant ("/" ++ p) p
| sv_trailing p : sep_variant (p ++ "/") p
| sv_repeated p q : sep_variant (p ++ "//" ++ q) (p ++ "/" ++ q).

(** A client of the catalogue at [http://m3.example]. *)
Definition m3_client : Microservice :=
  {| _base_url := "http://m3.example/"; _jwt := VStr "" |}.

(** [response.json()] *)
Definition json_of (response : Response) : result value :=
  match json_body response with
  | Some v => Ok v
  | None => Raise JSONDecodeError
  end.

(** [obj[key]] for a [str] key: only a [dict] can be subscripted by it. *)
Definition getitem (obj : value) (key : string) : result value :=
  match obj with
  | VDict items =>
      match dict_get key items with
      | Some v => Ok v
      | None => Raise (KeyError key)
      end
  | _ => Raise TypeError
  end.

(** The characters of a [str], each with the bytes of its encoding: a byte
    of the form [10xxxxxx] continues the character before it.  The helper
    walks from the right and returns the continuation bytes not yet
    attached to a leading byte with the characters found. *)
Definition continues (c : ascii) : bool :=
  match c with
  | Ascii _ _ _ _ _ _ false true => true
  | _ => false
  end.

Fixpoint characters_from_right (s : string) : string * list string :=
  match s with
  | EmptyString => (EmptyString, [])
  | String c rest =>
      let (pending, found) := characters_from_right rest in
      if continues c then (String c pending, found)
      else (EmptyString, String c pending :: found)
  end.

Definition characters (s : string) : list string :=
  snd (characters_from_right s).

(** [for item in obj]: a list gives its elements, a dict its keys, a [str]
    its characters; nothing else that [json] produces can be iterated. *)
Definition iterate (obj : value) : result (list value) :=
  match obj with
  | VList elements => Ok elements
  | VDict items => Ok (map VStr (keys items))
  | VStr s => Ok (map VStr (characters s))
  | _ => Raise TypeError
  end.

(** The public operations of a client: those of the base class and those of
    the three services. *)
Inductive operation : Type :=
| UrlTo (endpoint : string)
| Authenticate (client_secret : string)
| Authenticated
| AuthorizationHeader
| GetAncillaryData (uuid : string)
| GetAncillaryDataVideoreference (uuid : string)
| GetAncillaryDataImagedmoment (uuid : string)
| GetAncillaryDataObservation (uuid : string)
| CreateAncillaryDatum (ancillary_datum : value)
| CreateAncillaryDataBulk (ancillary_data : list value)
| MergeAncillaryData (uuid : string) (ancillary_data : list value) (window : Z)
| GetAnnotation (uuid : string)
| GetAnnotationsVideoreference (uuid : string) (kwargs : list (string * value))
| GetAnnotationsImagereference (uuid : string) (kwargs : list (string * value))
| GetAnnotationsVideoreferenceChunked (uuid : string)
                                      (kwargs : list (string * value))
| GetVriAll (kwargs : list (string * value))
| GetVriUuid (uuid : string)
| GetVideoreferenceuuidAll
| GetVriVideoreferenceuuid (uuid : string)
| GetMissionids
| GetVriMissionid (mission_id : string)
| GetMissioncontacts
| GetVriMissioncontact (mission_contact : string)
| UploadFramegrab (image_file camera_id deployment_id name : string)
| GetFramegrab (camera_id deployment_id name : string)
| DownloadFramegrab (image_file camera_id deployment_id name : string)
| GetMediaVideoreference (uuid : string)
| GetMediaVideoreferenceFilename (filename : string)
| GetMediaVideosequenceName (name : string)
| GetMediaVideo (name : string)
| GetMediaCameraTimestamps (camera_id start_time end_time : string)
| GetMediaConcurrent (uuid : string)
| GetMediaCameraDatetime (camera_id date_time : string)
| GetMediaUri (uri : string).

(** The operations that attach the authorization header. *)
Definition privileged (op : operation) : bool :=
  match op with
  | CreateAncillaryDatum _ | CreateAncillaryDataBulk _
  | MergeAncillaryData _ _ _ | UploadFramegrab _ _ _ _ => true
  | _ => false
  end.

(** ** microservices.py: requests and the state of a run *)

Inductive http_method : Type := GET | POST | PUT.

(** A call of [requests.get], [requests.post] or [requests.put] with the
    keyword arguments the code passes. *)
Record Request : Type := {
  method : http_method;
  url : string;
  headers : option (list (string * string));
  params : option value;
  data : option value;
  json : option value;
  files : option (list (string * list Byte.byte))
}.

(** The client object, the requests sent so far (oldest first) and the files
    written so far. *)
Record state : Type := {
  client : Microservice;
  network : list Request;
  written : list (string * list Byte.byte)
}.

Definition M (A : Type) : Type := state -> result A * state.

Definition ret {A} (a : A) : M A := fun st => (Ok a, st).

Definition raise {A} (e : exn) : M A := fun st => (Raise e, st).

Definition bind {A B} (m : M A) (k : A -> M B) : M B :=
  fun st =>
    match m st with
    | (Ok a, st') => k a st'
    | (Raise e, st') => (Raise e, st')
    end.

Definition lift {A} (r : result A) : M A := fun st => (r, st).

Definition get_self : M Microservice := fun st => (Ok (client st), st).

Definition set_jwt (token : value) : M unit :=
  fun st =>
    (Ok tt,
     {| client := {| _base_url := _base_url (client st); _jwt := token |};
        network := network st;
        written := written st |}).

Definition write_file (path : string) (b : list Byte.byte) : M unit :=
  fun st =>
    (Ok tt,
     {| client := client st;
        network := network st;
        written := dict_set path b (written st) |}).

Declare Scope action_scope.
Delimit Scope action_scope with action.
Notation "x <- m ;; k" := (bind m (fun x => k))
  (at level 61, m at next level, right associativity) : action_scope.
Notation "m ;; k" := (bind m (fun _ => k))
  (at level 61, right associativity) : action_scope.

(** The request [authenticate] sends:
    [requests.post(self.url_to('auth'), headers={'Authorization': 'APIKEY
    {}'.format(client_secret)})]. *)
Definition auth_request (self : Microservice) (client_secret : string)
  : Request :=
  {| method := POST; url := url_to self "auth";
     headers := Some [("Authorization", ("APIKEY " ++ client_secret)%string)];
     params := None; data := None; json := None; files := None |}.

(** A computation that leaves the client object as it found it. *)
Definition preserves_client {A} (m : M A) : Prop :=
  forall st, client (snd (m st)) = client st.

Section Client.
(** What the remote end answers to a request, given the requests sent
    before it, or the exception [requests] raises. *)
Variable transport : list Request -> Request -> result Response.
(** [open(path, 'rb')] with the bytes of the file, or the error. *)
Variable open_rb : string -> result (list Byte.byte).
(** [open(path, 'wb')]: whether the file can be opened for writing. *)
Variable open_wb : string -> result unit.
(** [str(obj)] for an object that is not a [str]. *)
Variable py_str : value -> string.
(** [json.dumps(obj)] *)
Variable json_dumps : value -> result string.

Open Scope action_scope.

(** ['{}'.format(obj)] *)
Definition format (obj : value) : string :=
  match obj with
  | VStr s => s
  | _ => py_str obj
  end.

Definition send (req : Request) : M Response :=
  fun st =>
    (transport (network st) req,
     {| client := client st;
        network := network st ++ [req];
        written := written st |}).

Definition authenticate (client_secret : string) : M unit :=
  self <- get_self ;;
  response <- send (auth_request self client_secret) ;;
  if (status_code response =? 200)%Z then
    token <- lift (j <- json_of response ;;
                   getitem j "access_token")%result ;;
    set_jwt token
  else raise (AuthenticationError client_secret).

Definition _authorization_header (self : Microservice)
  : result (list (string * string)) :=
  if negb (authenticated self) then Raise AuthenticationMissingError
  else Ok [("Authorization", ("BEARER " ++ format (_jwt self))%string)].

(** *** Annosaurus: the calls that need authorization *)

Definition create_ancillary_datum (ancillary_datum : value) : M value :=
  self <- get_self ;;
  let u := url_to self "v1/ancillarydata" in
  h <- lift (_authorization_header self) ;;
  d <- lift (properties ancillary_datum) ;;
  response <- send {| method := POST; url := u; headers := Some h;
                      params := None; data := Some d; json := None;
                      files := None |} ;;
  lift (handle_status response) ;;
  lift (json_of response).

(** [[datum.properties for datum in ancillary_data]] *)
Fixpoint properties_of_each (ancillary_data : list value)
  : result (list value) :=
  match ancillary_data with
  | [] => Ok []
  | datum :: rest =>
      (p <- properties datum ;;
       ps <- properties_of_each rest ;;
       Ok (p :: ps))%result
  end.

Definition create_ancillary_data_bulk (ancillary_data : list value)
  : M value :=
  self <- get_self ;;
  h <- lift (_authorization_header self) ;;
  json_data <- lift (ps <- properties_of_each ancillary_data ;;
                     json_dumps (VList ps))%result ;;
  response <- send {| method := POST;
                      url := url_to self "v1/ancillarydata/bulk";
                      headers := Some h; params := None; data := None;
                      json := Some (VStr json_data); files := None |} ;;
  lift (handle_status response) ;;
  lift (json_of response).

Definition merge_ancillary_data (uuid : string)
           (ancillary_data : list value) (window : Z) : M value :=
  self <- get_self ;;
  h <- lift (_authorization_header self) ;;
  let p := if (window >? 0)%Z then Some (VDict [("window", VInt window)])
           else None in
  json_data <- lift (ps <- properties_of_each ancillary_data ;;
                     json_dumps (VList ps))%result ;;
  send {| method := PUT;
          url := url_to self ("v1/ancillarydata/merge/" ++ uuid);
          headers := Some h; params := p; data := None;
          json := Some (VStr json_data); files := None |} ;;
  ret VNone.

(** *** Panoptes: the call that needs authorization *)

(** [ImageParams(obj)]: the positional argument fills the first field. *)
Definition ImageParams_of (obj : value) : value :=
  VInstance "ImageParams"
    [ ("uri", obj); ("cameraId", VNone); ("deploymentId", VNone);
      ("name", VNone) ].

Definition upload_framegrab (image_file camera_id deployment_id name : string)
  : M value :=
  file <- lift (open_rb image_file) ;;
  self <- get_self ;;
  let u := url_to self ("v1/images/" ++ camera_id ++ "/" ++ deployment_id
                          ++ "/" ++ name) in
  h <- lift (_authorization_header self) ;;
  response <- send {| method := POST; url := u; headers := Some h;
                      params := None; data := None; json := None;
                      files := Some [("file", file)] |} ;;
  lift (handle_status response) ;;
  j <- lift (json_of response) ;;
  ret (ImageParams_of j).

(** *** The calls that need no authorization *)

(** The bodies of the getters repeat four shapes: one record or a list of
    records, with or without [handle_status] between the request and the
    parsing of the body. *)
Definition requests_get (u : string) (p : option value) : M Response :=
  send {| method := GET; url := u; headers := None; params := p;
          data := None; json := None; files := None |}.

(** [return from_dict(dtype, response.json())] *)
Definition one (dtype : pytype) (response : Response) : M value :=
  j <- lift (json_of response) ;;
  ret (from_dict dtype j).

(** [return [from_dict(dtype, item) for item in response.json()]] *)
Definition each (dtype : pytype) (response : Response) : M value :=
  j <- lift (json_of response) ;;
  its <- lift (iterate j) ;;
  ret (VList (map (from_dict dtype) its)).

(** [return response.json()] *)
Definition raw (response : Response) : M value := lift (json_of response).

Definition checked (endpoint : string) (k : Response -> M value) : M value :=
  self <- get_self ;;
  response <- requests_get (url_to self endpoint) None ;;
  lift (handle_status response) ;;
  k response.

Definition unchecked (endpoint : string) (p : option value)
           (k : Response -> M value) : M value :=
  self <- get_self ;;
  response <- requests_get (url_to self endpoint) p ;;
  k response.

(** Annosaurus *)
Definition get_ancillary_data (uuid : string) : M value :=
  checked ("v1/ancillarydata/" ++ uuid) (one CachedAncillaryDatum).
Definition get_ancillary_data_videoreference (uuid : string) : M value :=
  checked ("v1/ancillarydata/videoreference/" ++ uuid) raw.
Definition get_ancillary_data_imagedmoment (uuid : string) : M value :=
  checked ("v1/ancillarydata/imagedmoment/" ++ uuid) raw.
Definition get_ancillary_data_observation (uuid : string) : M value :=
  checked ("v1/ancillarydata/observation/" ++ uuid) raw.
Definition get_annotation (uuid : string) : M value :=
  unchecked ("v1/annotations/" ++ uuid) None (one Observation).
Definition get_annotations_videoreference (uuid : string)
           (kwargs : list (string * value)) : M value :=
  unchecked ("v1/annotations/videoreference/" ++ uuid)
            (Some (VDict kwargs)) (each Observation).
Definition get_annotations_imagereference (uuid : string)
           (kwargs : list (string * value)) : M value :=
  unchecked ("v1/annotations/imagereference/" ++ uuid)
            (Some (VDict kwargs)) (each Observation).
Definition get_annotations_videoreference_chunked (uuid : string)
           (kwargs : list (string * value)) : M value :=
  unchecked ("v1/annotations/videoreference/chunked/" ++ uuid)
            (Some (VDict kwargs)) (each Observation).
Definition get_vri_all (kwargs : list (string * value)) : M value :=
  unchecked "v1/videoreferences/" (Some (VDict kwargs))
            (each CachedVideoReferenceInfo).
Definition get_vri_uuid (uuid : string) : M value :=
  unchecked ("v1/videoreferences/" ++ uuid) None
            (one CachedVideoReferenceInfo).
Definition get_videoreferenceuuid_all : M value :=
  unchecked "v1/videoreferences/videoreferences" None raw.
Definition get_vri_videoreferenceuuid (uuid : string) : M value :=
  unchecked ("v1/videoreferences/videoreference/" ++ uuid) None
            (each CachedVideoReferenceInfo).
Definition get_missionids : M value :=
  unchecked "v1/videoreferences/missionids" None raw.
Definition get_vri_missionid (mission_id : string) : M value :=
  unchecked ("v1/videoreferences/missionid/" ++ mission_id) None
            (each CachedVideoReferenceInfo).
Definition get_missioncontacts : M value :=
  unchecked "v1/videoreferences/missioncontacts" None raw.
Definition get_vri_missioncontact (mission_contact : string) : M value :=
  unchecked ("v1/videoreferences/missioncontact/" ++ mission_contact) None
            (each CachedVideoReferenceInfo).

(** Panoptes *)
Definition get_framegrab (camera_id deployment_id name : string) : M value :=
  checked ("v1/images/" ++ camera_id ++ "/" ++ deployment_id ++ "/" ++ name)
          (one ImageParams).

Definition download_framegrab
           (image_file camera_id deployment_id name : string) : M value :=
  self <- get_self ;;
  response <- requests_get
                (url_to self ("v1/images/download/" ++ camera_id ++ "/"
                                ++ deployment_id ++ "/" ++ name)) None ;;
  lift (open_wb image_file) ;;
  write_file image_file (content response) ;;
  ret VNone.

(** Vampire Squid *)
Definition get_media_videoreference (uuid : string) : M value :=
  checked ("v1/media/videoreference/" ++ uuid) (one Media).
Definition get_media_videoreference_filename (filename : string) : M value :=
  checked ("v1/media/videoreference/filename/" ++ filename) (one Media).
Definition get_media_videosequence_name (name : string) : M value :=
  checked ("v1/media/videosequence/" ++ name) (each Media).
Definition get_media_video (name : string) : M value :=
  checked ("v1/media/video/" ++ name) (each Media).
Definition get_media_camera_timestamps
           (camera_id start_time end_time : string) : M value :=
  checked ("v1/media/camera/" ++ camera_id ++ "/" ++ start_time ++ "/"
             ++ end_time) (each Media).
Definition get_media_concurrent (uuid : string) : M value :=
  checked ("v1/media/concurrent/" ++ uuid) (each Media).
Definition get_media_camera_datetime (camera_id date_time : string)
  : M value :=
  checked ("v1/media/camera/" ++ camera_id ++ "/" ++ date_time) (each Media).
Definition get_media_uri (uri : string) : M value :=
  checked ("v1/media/uri/" ++ uri) (one Media).

(** *** A call of any operation *)

(** A header dict as a value. *)
Definition header_value (h : list (string * string)) : value :=
  VDict (map (fun kv => (fst kv, VStr (snd kv))) h).

Definition perform (op : operation) : M value :=
  match op with
  | UrlTo endpoint => self <- get_self ;; ret (VStr (url_to self endpoint))
  | Authenticate client_secret => authenticate client_secret ;; ret VNone
  | Authenticated => self <- get_self ;; ret (VBool (authenticated self))
  | AuthorizationHeader =>
      self <- get_self ;;
      h <- lift (_authorization_header self) ;;
      ret (header_value h)
  | GetAncillaryData uuid => get_ancillary_data uuid
  | GetAncillaryDataVideoreference uuid =>
      get_ancillary_data_videoreference uuid
  | GetAncillaryDataImagedmoment uuid => get_ancillary_data_imagedmoment uuid
  | GetAncillaryDataObservation uuid => get_ancillary_data_observation uuid
  | CreateAncillaryDatum ancillary_datum =>
      create_ancillary_datum ancillary_datum
  | CreateAncillaryDataBulk ancillary_data =>
      create_ancillary_data_bulk ancillary_data
  | MergeAncillaryData uuid ancillary_data window =>
      merge_ancillary_data uuid ancillary_data window
  | GetAnnotation uuid => get_annotation uuid
  | GetAnnotationsVideoreference uuid kwargs =>
      get_annotations_videoreference uuid kwargs
  | GetAnnotationsImagereference uuid kwargs =>
      get_annotations_imagereference uuid kwargs
  | GetAnnotationsVideoreferenceChunked uuid kwargs =>
      get_annotations_videoreference_chunked uuid kwargs
  | GetVriAll kwargs => get_vri_all kwargs
  | GetVriUuid uuid => get_vri_uuid uuid
  | GetVideoreferenceuuidAll => get_videoreferenceuuid_all
  | GetVriVideoreferenceuuid uuid => get_vri_videoreferenceuuid uuid
  | GetMissionids => get_missionids
  | GetVriMissionid mission_id => get_vri_missionid mission_id
  | GetMissioncontacts => get_missioncontacts
  | GetVriMissioncontact mission_contact =>
      get_vri_missioncontact mission_contact
  | UploadFramegrab image_file camera_id deployment_id name =>
      upload_framegrab image_file camera_id deployment_id name
  | GetFramegrab camera_id deployment_id name =>
      get_framegrab camera_id deployment_id name
  | DownloadFramegrab image_file camera_id deployment_id name =>
      download_framegrab image_file camera_id deployment_id name
  | GetMediaVideoreference uuid => get_media_videoreference uuid
  | GetMediaVideoreferenceFilename filename =>
      get_media_videoreference_filename filename
  | GetMediaVideosequenceName name => get_media_videosequence_name name
  | GetMediaVideo name => get_media_video name
  | GetMediaCameraTimestamps camera_id start_time end_time =>
      get_media_camera_timestamps camera_id start_time end_time
  | GetMediaConcurrent uuid => get_media_concurrent uuid
  | GetMediaCameraDatetime camera_id date_time =>
      get_media_camera_datetime camera_id date_time
  | GetMediaUri uri => get_media_uri uri
  end.

(** A caller that performs operations one after the other, whatever each
    of them returns or raises, and the state it ends in. *)
Definition run_all (ops : list operation) (st : state) : state :=
  fold_left (fun st op => snd (perform op st)) ops st.
End Client.

(** ** Runs used in the examples *)

(** A transport that gives the same answer to every request, and one that
    reaches nothing. *)
Definition answers (response : Response)
  : list Request -> Request -> result Response :=
  fun _ _ => Ok response.

Definition offline : list Request -> Request -> result Response :=
  fun _ _ => Raise ConnectionError.

(** A file system without files to read. *)
Definition no_files : string -> result (list Byte.byte) :=
  fun path => Raise (FileNotFoundError path).

Definition read_only : string -> result unit :=
  fun path => Raise (FileNotFoundError path).

(** Stand-ins for [str] and [json.dumps] in runs that reach neither: every
    token formatted below is a [str], and nothing is serialized. *)
Definition str_unreached : value -> string := fun _ => "".

Definition dumps_unreached : value -> result string :=
  fun _ => Raise TypeError.

Definition double_quote : string := String "034"%char "".

(** Status 200 with an empty access token: the body is the JSON object with
    the one key [access_token] and the empty string as its value. *)
Definition empty_token_response : Response :=
  {| status_code := 200;
     content := list_byte_of_string
                  ("{" ++ double_quote ++ "access_token" ++ double_quote
                       ++ ": " ++ double_quote ++ double_quote ++ "}");
     json_body := Some (VDict [("access_token", VStr "")]) |}.

(** Status 401. *)
Definition unauthorized_response : Response :=
  {| status_code := 401; content := []; json_body := None |}.

(** A session that holds a token, and one that has just been constructed. *)
Definition logged_in : state :=
  {| client := {| _base_url := "http://m3.example/"; _jwt := VStr "jwt" |};
     network := [];
     written := [] |}.

Definition fresh : state :=
  {| client := m3_client; network := []; written := [] |}.

(** An instance of a dataclass with three fields, of which one is set. *)
Definition one_of_three : value :=
  VInstance "Sample" [("a", VNone); ("b", VInt 1); ("c", VNone)].

(** A datum with only the latitude set. *)
Definition datum : value :=
  from_dict CachedAncillaryDatum (VDict [("latitude", VInt 36)]).

(** ** Shapes of values and of operations *)

(** A value without a dataclass instance anywhere inside it. *)
Fixpoint plain (v : value) : bool :=
  match v with
  | VInstance _ _ => false
  | VList elements => forallb plain elements
  | VDict items => forallb (fun kv => plain (snd kv)) items
  | _ => true
  end.


(** A declared type that is not a dataclass. *)
Definition not_dataclass (t : pytype) : bool :=
  match t with
  | TDataclass _ _ => false
  | _ => true
  end.

(** Induction on values, with the hypothesis for every element of a list
    and every value of a dict or of an instance. *)
Section ValueInduction.
Variable P : value -> Prop.
Hypothesis HNone : P VNone.
Hypothesis HBool : forall b, P (VBool b).
Hypothesis HInt : forall n, P (VInt n).
Hypothesis HFloat : forall x, P (VFloat x).
Hypothesis HStr : forall s, P (VStr s).
Hypothesis HList : forall l, Forall P l -> P (VList l).
Hypothesis HDict :
  forall d, Forall (fun kv => P (snd kv)) d -> P (VDict d).
Hypothesis HInstance :
  forall c d, Forall (fun kv => P (snd kv)) d -> P (VInstance c d).

Fixpoint value_induction (v : value) : P v :=
  match v with
  | VNone => HNone
  | VBool b => HBool b
  | VInt n => HInt n
  | VFloat x => HFloat x
  | VStr s => HStr s
  | VList l =>
      HList ((fix all (l : list value) : Forall P l :=
                match l with
                | [] => Forall_nil P
                | x :: r => Forall_cons x (value_induction x) (all r)
                end) l)
  | VDict d =>
      HDict ((fix all (d : list (string * value))
                : Forall (fun kv => P (snd kv)) d :=
                match d with
                | [] => Forall_nil _
                | kv :: r =>
                    Forall_cons kv (value_induction (snd kv)) (all r)
                end) d)
  | VInstance c d =>
      HInstance c
        ((fix all (d : list (string * value))
            : Forall (fun kv => P (snd kv)) d :=
            match d with
            | [] => Forall_nil _
            | kv :: r =>
                Forall_cons kv (value_induction (snd kv)) (all r)
            end) d)
  end.
End ValueInduction.

(** The same transport with the status of every answer replaced. *)
Definition with_status (code : Z)
           (transport : list Request -> Request -> result Response)
  : list Request -> Request -> result Response :=
  fun sent req =>
    match transport sent req with
    | Ok response =>
        Ok {| status_code := code;
              content := content response;
              json_body := json_body response |}
    | Raise e => Raise e
    end.

(** The operations that send a request and never call [handle_status] nor
    read the status themselves. *)
Definition ignores_status (op : operation) : bool :=
  match op with
  | MergeAncillaryData _ _ _
  | GetAnnotation _
  | GetAnnotationsVideoreference _ _
  | GetAnnotationsImagereference _ _
  | GetAnnotationsVideoreferenceChunked _ _
  | GetVriAll _
  | GetVriUuid _
  | GetVideoreferenceuuidAll
  | GetVriVideoreferenceuuid _
  | GetMissionids
  | GetVriMissionid _
  | GetMissioncontacts
  | GetVriMissioncontact _
  | DownloadFramegrab _ _ _ _ => true
  | _ => false
  end.

(** The getters that call [handle_status] on the answer. *)
Definition checked_getter (op : operation) : bool :=
  match op with
  | GetAncillaryData _
  | GetAncillaryDataVideoreference _
  | GetAncillaryDataImagedmoment _
  | GetAncillaryDataObservation _
  | GetFramegrab _ _ _
  | GetMediaVideoreference _
  | GetMediaVideoreferenceFilename _
  | GetMediaVideosequenceName _
  | GetMediaVideo _
  | GetMediaCameraTimestamps _ _ _
  | GetMediaConcurrent _
  | GetMediaCameraDatetime _ _
  | GetMediaUri _ => true
  | _ => false
  end.

(** The getters that return a list, with the dataclass of its elements. *)
Definition list_getter (op : operation) : option pytype :=
  match op with
  | GetAnnotationsVideoreference _ _
  | GetAnnotationsImagereference _ _
  | GetAnnotationsVideoreferenceChunked _ _ => Some Observation
  | GetVriAll _
  | GetVriVideoreferenceuuid _
  | GetVriMissionid _
  | GetVriMissioncontact _ => Some CachedVideoReferenceInfo
  | GetMediaVideosequenceName _
  | GetMediaVideo _
  | GetMediaCameraTimestamps _ _ _
  | GetMediaConcurrent _
  | GetMediaCameraDatetime _ _ => Some Media
  | _ => None
  end.

(** An instance of [CachedAncillaryDatum]. *)
Definition is_datum (v : value) : bool :=
  match v with
  | VInstance class_name _ => String.eqb class_name "CachedAncillaryDatum"
  | _ => false
  end.

(** The requests of [download_framegrab] and of [merge_ancillary_data]. *)
Definition download_request (self : Microservice)
           (camera_id deployment_id name : string) : Request :=
  {| method := GET;
     url := url_to self ("v1/images/download/" ++ camera_id ++ "/"
                           ++ deployment_id ++ "/" ++ name);
     headers := None; params := None; data := None; json := None;
     files := None |}.

Definition merge_request (self : Microservice)
           (h : list (string * string)) (uuid : string)
           (window : Z) (json_data : string) : Request :=
  {| method := PUT;
     url := url_to self ("v1/ancillarydata/merge/" ++ uuid);
     headers := Some h;
     params := if (window >? 0)%Z then Some (VDict [("window", VInt window)])
               else None;
     data := None;
     json := Some (VStr json_data);
     files := None |}.

(** A transport that never answers with status 200 and the empty [str] as
    access token. *)
Definition no_empty_token
           (transport : list Request -> Request -> result Response) : Prop :=
  forall sent req response,
    transport sent req = Ok response ->
    status_code response = 200%Z ->
    (j <- json_of response ;; getitem j "access_token")%result
    <> Ok (VStr "").

(** Status 200 with the access token [jwt2], and status 500 with a JSON
    object as body. *)
Definition token_response : Response :=
  {| status_code := 200; content := [];
     json_body := Some (VDict [("access_token", VStr "jwt2")]) |}.

Definition error_response : Response :=
  {| status_code := 500; content := [];
     json_body := Some (VDict [("message", VStr "failure")]) |}.

(** Dumping as the empty text, for runs in which the text does not
    matter. *)
Definition dumps_empty : value -> result string := fun _ => Ok "".

(** A file system in which every file can be written and the one image
    can be read. *)
Definition writable : string -> result unit := fun _ => Ok tt.

Definition one_image : string -> result (list Byte.byte) :=
  fun path => if String.eqb path "frame.png" then Ok [Byte.x89]
              else Raise (FileNotFoundError path).

(** * Properties *)

(** ** Dictionaries *)

Section DictFacts.
Variable V : Type.
Implicit Types (d acc : list (string * V)) (k key : string).

Lemma dict_get_None_iff d k : dict_get k d = None <-> ~ In k (keys d).
Proof.
  induction d as [|[k' v'] d IH]; simpl.
  - tauto.
  - destruct (String.eqb_spec k' k) as [->|Hne].
    + split; [discriminate|]. intros H. exfalso. apply H. now left.
    + rewrite IH. tauto.
Qed.

Lemma dict_has_In d k : dict_has k d = true <-> In k (keys d).
Proof.
  unfold dict_has. destruct (dict_get k d) eqn:E.
  - split; [intros _|reflexivity].
    destruct (in_dec string_dec k (keys d)) as [Hin|Hout]; [exact Hin|].
    apply dict_get_None_iff in Hout. congruence.
  - apply dict_get_None_iff in E. split; [discriminate|tauto].
Qed.

Lemma dict_set_fresh d k (v : V) :
  ~ In k (keys d) -> dict_set k v d = d ++ [(k, v)].
Proof.
  induction d as [|[k' v'] d IH]; simpl; intros Hout; [reflexivity|].
  destruct (String.eqb_spec k' k) as [->|Hne].
  - exfalso. apply Hout. now left.
  - rewrite IH; [reflexivity|tauto].
Qed.

Lemma keys_dict_set d k (v : V) :
  forall x, In x (keys (dict_set k v d)) <-> x = k \/ In x (keys d).
Proof.
  induction d as [|[k' v'] d IH]; simpl; intros x.
  - intuition.
  - destruct (String.eqb_spec k' k) as [->|Hne]; simpl.
    + intuition.
    + rewrite IH. intuition.
Qed.

Lemma keys_app d1 d2 : keys (d1 ++ d2) = keys d1 ++ keys d2.
Proof. apply map_app. Qed.

Lemma fold_dict_set_nodup d acc :
  NoDup (keys (acc ++ d)) ->
  fold_left (fun a kv => dict_set (fst kv) (snd kv) a) d acc = acc ++ d.
Proof.
  revert acc. induction d as [|[k v] d IH]; simpl; intros acc Hnd.
  - now rewrite app_nil_r.
  - assert (Hout : ~ In k (keys acc)).
    { rewrite keys_app in Hnd. simpl in Hnd.
      apply NoDup_remove_2 in Hnd. intros Hin. apply Hnd.
      apply in_or_app. now left. }
    rewrite dict_set_fresh by exact Hout.
    rewrite IH; rewrite <- app_assoc; simpl; [reflexivity|exact Hnd].
Qed.

Lemma dict_of_nodup d : NoDup (keys d) -> dict_of d = d.
Proof. intros Hnd. unfold dict_of. now rewrite fold_dict_set_nodup. Qed.

Lemma keys_fold_dict_set d acc :
  forall x,
    In x (keys (fold_left (fun a kv => dict_set (fst kv) (snd kv) a) d acc))
    <-> In x (keys acc) \/ In x (keys d).
Proof.
  revert acc. induction d as [|[k v] d IH]; simpl; intros acc x.
  - tauto.
  - rewrite IH, keys_dict_set. intuition.
Qed.

Lemma dict_has_dict_of d k : dict_has k (dict_of d) = dict_has k d.
Proof.
  apply eq_true_iff_eq. rewrite !dict_has_In. unfold dict_of.
  rewrite keys_fold_dict_set. simpl. tauto.
Qed.

Lemma dict_get_In_nodup d k (v : V) :
  NoDup (keys d) -> In (k, v) d -> dict_get k d = Some v.
Proof.
  induction d as [|[k' v'] d IH]; simpl; intros Hnd Hin; [contradiction|].
  inversion Hnd as [|? ? Hout Hnd']; subst.
  destruct Hin as [Heq|Hin].
  - inversion Heq; subst. now rewrite String.eqb_refl.
  - destruct (String.eqb_spec k' k) as [->|Hne]; [|now apply IH].
    exfalso. apply Hout. change k with (fst (k, v)). now apply in_map.
Qed.
End DictFacts.

(** ** The deserializer *)

(** [from_dict] is its [try] body with the [except] around it. *)
Lemma from_dict_unfold dtype data :
  from_dict dtype data =
  match from_dict_try dtype data with
  | Ok instance => instance
  | Raise _ => data
  end.
Proof.
  destruct dtype as [| | |t|name fs]; destruct data; reflexivity.
Qed.

(** Anything that is not a dataclass has no fields: the value comes back. *)
Lemma from_dict_not_dataclass dtype data :
  (forall name fs, dtype <> TDataclass name fs) -> from_dict dtype data = data.
Proof.
  intros Hnot. rewrite from_dict_unfold.
  destruct dtype; try reflexivity. now destruct (Hnot name class_fields).
Qed.

Lemma from_dict_list element data : from_dict (TList element) data = data.
Proof. apply from_dict_not_dataclass. discriminate. Qed.

Section ComprehensionFacts.
Variable field_map : list (string * pytype).

Lemma keys_converted its : keys (map (converted field_map) its) = keys its.
Proof. unfold keys. rewrite map_map. reflexivity. Qed.

Lemma comprehension_declared its :
  forall acc,
    forallb (fun k => dict_has k field_map) (keys its) = true ->
    NoDup (keys (acc ++ its)) ->
    comprehension field_map its acc = Ok (acc ++ map (converted field_map) its).
Proof.
  induction its as [|[k v] its IH]; simpl; intros acc Hall Hnd.
  - now rewrite app_nil_r.
  - apply andb_prop in Hall. destruct Hall as [Hk Hall].
    unfold dict_has in Hk. unfold converted at 1. simpl.
    destruct (dict_get k field_map) as [ftype|]; [|discriminate].
    assert (Hout : ~ In k (keys acc)).
    { rewrite keys_app in Hnd. simpl in Hnd.
      apply NoDup_remove_2 in Hnd. intros Hin. apply Hnd.
      apply in_or_app. now left. }
    rewrite dict_set_fresh by exact Hout.
    rewrite IH.
    + now rewrite <- app_assoc.
    + exact Hall.
    + rewrite !keys_app in *. simpl in *. now rewrite <- app_assoc.
Qed.

Lemma comprehension_undeclared its :
  forall acc,
    forallb (fun k => dict_has k field_map) (keys its) = false ->
    exists k, In k (keys its) /\ dict_has k field_map = false /\
              comprehension field_map its acc = Raise (KeyError k).
Proof.
  induction its as [|[k v] its IH]; simpl; intros acc Hall; [discriminate|].
  unfold dict_has at 1 in Hall. unfold dict_has at 1.
  destruct (dict_get k field_map) as [ftype|] eqn:Ek; simpl in Hall.
  - destruct (IH (dict_set k (from_dict ftype v) acc) Hall)
      as (k' & Hin & Hk' & Hraise).
    exists k'. repeat split; auto.
  - exists k. rewrite Ek. repeat split; auto.
Qed.

Lemma dict_get_converted its k :
  dict_get k (map (converted field_map) its) =
  match dict_get k its with
  | Some val => Some (snd (converted field_map (k, val)))
  | None => None
  end.
Proof.
  induction its as [|[k' v'] its IH]; simpl; [reflexivity|].
  destruct (String.eqb_spec k' k) as [->|Hne]; [reflexivity|apply IH].
Qed.
End ComprehensionFacts.

(** One undeclared key is enough for the dict to come back as it is. *)
Lemma from_dict_undeclared_raw name fs items k :
  In k (keys items) -> dict_has k fs = false ->
  from_dict (TDataclass name fs) (VDict items) = VDict items.
Proof.
  intros Hin Hk. rewrite from_dict_unfold. unfold from_dict_try. simpl.
  destruct (forallb (fun k => dict_has k (dict_of fs)) (keys items)) eqn:Hall.
  - rewrite forallb_forall in Hall. apply Hall in Hin.
    rewrite dict_has_dict_of in Hin. congruence.
  - destruct (comprehension_undeclared (dict_of fs) items [] Hall)
      as (k' & _ & _ & ->).
    reflexivity.
Qed.

(** The two outcomes of [from_dict] on a dict at a dataclass. *)
Lemma from_dict_dataclass name fs items :
  NoDup (keys fs) -> NoDup (keys items) ->
  from_dict (TDataclass name fs) (VDict items) =
  if forallb (fun k => dict_has k fs) (keys items)
  then VInstance name (map (slot_of items) fs)
  else VDict items.
Proof.
  intros Hfs Hitems. rewrite from_dict_unfold. unfold from_dict_try. simpl.
  rewrite dict_of_nodup by exact Hfs.
  destruct (forallb (fun k => dict_has k fs) (keys items)) eqn:Hall.
  - rewrite comprehension_declared by assumption. simpl.
    rewrite keys_converted, Hall. f_equal.
    apply map_ext_in. intros [fname ftype] Hin. unfold slot_of. simpl.
    rewrite dict_get_converted. destruct (dict_get fname items); [|reflexivity].
    unfold converted. simpl.
    now rewrite (@dict_get_In_nodup _ fs fname ftype Hfs Hin).
  - destruct (comprehension_undeclared fs items [] Hall) as (k & _ & _ & ->).
    reflexivity.
Qed.

Lemma NoDup_keys_filter (V : Type) (p : string * V -> bool) d :
  NoDup (keys d) -> NoDup (keys (filter p d)).
Proof.
  induction d as [|[k v] d IH]; simpl; intros Hnd; [constructor|].
  inversion Hnd as [|? ? Hout Hnd']; subst.
  destruct (p (k, v)); simpl; [|now apply IH].
  constructor; [|now apply IH].
  intros Hin. apply Hout. unfold keys in *.
  apply in_map_iff in Hin. destruct Hin as ([k' v'] & Hk & Hin).
  apply filter_In in Hin. destruct Hin as [Hin _].
  apply in_map_iff. now exists (k', v').
Qed.

(** ** The projection *)

Lemma _asdict_inner_instance name slots :
  _asdict_inner (VInstance name slots) = VDict (map copied slots).
Proof.
  simpl. f_equal. induction slots as [|[k v] slots IH]; [reflexivity|].
  now rewrite IH.
Qed.

Lemma is_not_None_copied v : is_not_None (_asdict_inner v) = is_not_None v.
Proof. now destruct v. Qed.

Lemma filter_copied slots :
  filter (fun kv => is_not_None (snd kv)) (map copied slots) =
  map copied (filter (fun kv => is_not_None (snd kv)) slots).
Proof.
  induction slots as [|[k v] slots IH]; simpl; [reflexivity|].
  rewrite is_not_None_copied, IH. now destruct (is_not_None v).
Qed.

Lemma keys_copied slots : keys (map copied slots) = keys slots.
Proof. unfold keys. now rewrite map_map. Qed.

Lemma keys_filter_incl (V : Type) (p : string * V -> bool) d k :
  In k (keys (filter p d)) -> In k (keys d).
Proof.
  unfold keys. rewrite !in_map_iff. intros (kv & Hk & Hin).
  apply filter_In in Hin. exists kv. tauto.
Qed.

Lemma dict_get_projection slots k :
  NoDup (keys slots) ->
  dict_get k (map copied (filter (fun kv => is_not_None (snd kv)) slots)) =
  match dict_get k slots with
  | Some v => if is_not_None v then Some (_asdict_inner v) else None
  | None => None
  end.
Proof.
  induction slots as [|[k' v'] slots IH]; simpl; intros Hnd; [reflexivity|].
  inversion Hnd as [|? ? Hout Hnd']; subst.
  destruct (String.eqb_spec k' k) as [->|Hne].
  - destruct (is_not_None v') eqn:Hv; simpl.
    + now rewrite String.eqb_refl.
    + apply dict_get_None_iff. rewrite keys_copied.
      intros Hin. apply Hout. eapply keys_filter_incl. exact Hin.
  - destruct (is_not_None v'); simpl.
    + destruct (String.eqb_spec k' k); [contradiction|now apply IH].
    + now apply IH.
Qed.

(** The body of [properties], taken on an instance of any class: a dict
    whose keys are exactly the names of the slots that are not [None], in
    declaration order, each with the copy [asdict] makes of the slot; a
    scalar slot is copied as it is. *)
Lemma non_null_projection_characterized name slots :
  NoDup (keys slots) ->
  exists d,
    non_null_projection (VInstance name slots) = Ok (VDict d) /\
    keys d = keys (filter (fun kv => is_not_None (snd kv)) slots) /\
    (forall k,
        dict_get k d =
        match dict_get k slots with
        | Some v => if is_not_None v then Some (_asdict_inner v) else None
        | None => None
        end) /\
    (forall k v, In (k, v) slots -> v <> VNone ->
                 (forall l, v <> VList l) -> (forall l, v <> VDict l) ->
                 (forall c l, v <> VInstance c l) -> In (k, v) d) /\
    properties (VInstance "CachedAncillaryDatum" slots) = Ok (VDict d).
Proof.
  intros Hnd.
  exists (map copied (filter (fun kv => is_not_None (snd kv)) slots)).
  assert (Hproj : non_null_projection (VInstance name slots) =
                  Ok (VDict (map copied
                     (filter (fun kv => is_not_None (snd kv)) slots)))).
  { unfold non_null_projection, asdict.
    rewrite _asdict_inner_instance. simpl.
    rewrite filter_copied, dict_of_nodup; [reflexivity|].
    rewrite keys_copied. now apply NoDup_keys_filter. }
  repeat split.
  - exact Hproj.
  - apply keys_copied.
  - intros k. now apply dict_get_projection.
  - intros k v Hin Hnone Hl Hd Hi.
    apply in_map_iff. exists (k, v). split.
    + unfold copied. simpl. f_equal.
      destruct v; try reflexivity;
        [now destruct (Hl elements)|now destruct (Hd items)
        |now destruct (Hi class_name slots0)].
    + apply filter_In. split; [exact Hin|]. now destruct v.
  - unfold properties. simpl.
    unfold non_null_projection, asdict in *.
    rewrite _asdict_inner_instance in *. exact Hproj.
Qed.

(** C9, as stated, fails: the [properties] view is declared by
    [CachedAncillaryDatum] alone, so a typed record of any other class has
    no such attribute, whatever its slots hold. *)
Lemma properties_missing_on_other_records :
  properties one_of_three = Raise AttributeError /\
  properties (from_dict Association (VDict [("uuid", VStr "u")]))
  = Raise AttributeError.
Proof. split; reflexivity. Qed.

(** C9, amended. On an instance of [CachedAncillaryDatum], [properties] is
    a dict whose keys are exactly the names of the slots that are not
    [None], in declaration order, each with the copy [asdict] makes of the
    slot (a scalar slot as it is); on an instance of any other class, and on
    anything that is not an instance, [properties] raises
    [AttributeError]. *)
Theorem properties_datum_non_null class_name slots :
  NoDup (keys slots) ->
  (class_name = "CachedAncillaryDatum" ->
   exists d,
     properties (VInstance class_name slots) = Ok (VDict d) /\
     keys d = keys (filter (fun kv => is_not_None (snd kv)) slots) /\
     (forall k,
         dict_get k d =
         match dict_get k slots with
         | Some v => if is_not_None v then Some (_asdict_inner v) else None
         | None => None
         end) /\
     (forall k v, In (k, v) slots -> v <> VNone ->
                  (forall l, v <> VList l) -> (forall l, v <> VDict l) ->
                  (forall c l, v <> VInstance c l) -> In (k, v) d)) /\
  (class_name <> "CachedAncillaryDatum" ->
   properties (VInstance class_name slots) = Raise AttributeError) /\
  (forall v, (forall c l, v <> VInstance c l) ->
             properties v = Raise AttributeError).
Proof.
  intros Hnd. split; [|split].
  - intros ->.
    destruct (@non_null_projection_characterized "CachedAncillaryDatum"
                slots Hnd) as (d & _ & Hkeys & Hget & Hin & Hprop).
    exists d. repeat split; assumption.
  - intros Hne. unfold properties.
    destruct (String.eqb_spec class_name "CachedAncillaryDatum");
      [contradiction|reflexivity].
  - intros v Hv. destruct v; try reflexivity. now destruct (Hv class_name0 slots0).
Qed.

Lemma properties_datum_non_null_witness :
  exists d,
    properties datum = Ok (VDict d) /\
    keys d = ["latitude"] /\
    dict_get "latitude" d = Some (VInt 36) /\
    dict_get "longitude" d = None.
Proof.
  pose (slots := match datum with
                 | VInstance _ slots => slots
                 | _ => []
                 end).
  assert (Hnd : NoDup (keys slots)).
  { cbv. repeat constructor; simpl; intuition discriminate. }
  destruct (@properties_datum_non_null "CachedAncillaryDatum" slots Hnd)
    as [Hdatum _].
  destruct (Hdatum eq_refl) as (d & Hprop & Hkeys & Hget & _).
  exists d. split; [exact Hprop|]. split; [exact Hkeys|].
  split; [exact (Hget "latitude")|exact (Hget "longitude")].
Defined.

Example properties_latitude_only :
  properties datum = Ok (VDict [("latitude", VInt 36)]).
Proof. reflexivity. Qed.

Example non_null_projection_one_of_three :
  non_null_projection one_of_three = Ok (VDict [("b", VInt 1)]).
Proof. reflexivity. Qed.

(** What [from_dict] returns is the input itself or an instance of the
    dataclass with one slot per declared field. *)
Lemma from_dict_outcome dtype v :
  from_dict dtype v = v \/
  exists name fs slots,
    dtype = TDataclass name fs /\
    from_dict dtype v = VInstance name slots /\
    keys slots = keys fs.
Proof.
  rewrite from_dict_unfold. unfold from_dict_try.
  destruct dtype as [| | |t|name fs]; simpl; auto.
  destruct (items_of v) as [its|e]; simpl; auto.
  destruct (comprehension (dict_of fs) its []) as [kwargs|e]; simpl; auto.
  destruct (forallb (fun k => dict_has k fs) (keys kwargs)); auto.
  right. exists name, fs. eexists. repeat split.
  unfold keys. rewrite map_map. reflexivity.
Qed.

(** A slot declared as a list is filled with the value as it came. *)
Lemma slot_of_list items fname element :
  slot_of items (fname, TList element) =
  (fname, match dict_get fname items with
          | Some val => val
          | None => VNone
          end).
Proof.
  unfold slot_of. simpl. destruct (dict_get fname items); [|reflexivity].
  now rewrite from_dict_list.
Qed.

Example from_dict_flat :
  from_dict (TDataclass "Flat" [("a", Tstr); ("b", Tint)])
            (VDict [("a", VStr "x"); ("b", VInt 1)])
  = VInstance "Flat" [("a", VStr "x"); ("b", VInt 1)].
Proof. reflexivity. Qed.

Example from_dict_nested_dataclass :
  from_dict (TDataclass "Outer" [("inner", Association); ("n", Tint)])
            (VDict [("inner", VDict [("uuid", VStr "u")])])
  = VInstance "Outer"
      [("inner", VInstance "Association"
                   [("link_name", VNone); ("link_value", VNone);
                    ("to_concept", VNone); ("mime_type", VNone);
                    ("uuid", VStr "u")]);
       ("n", VNone)].
Proof. reflexivity. Qed.

(** ** Claims on the deserializer *)

(** C1. On the code, a field declared as a list of dataclasses is not
    converted element by element: [from_dict] at [List[Association]] finds no
    dataclass fields and hands the list back, so the [associations] slot of
    the [Observation] holds the two raw dicts (in input order), not two
    [Association] instances. *)
Theorem from_dict_list_field_stays_raw :
  exists slots,
    from_dict Observation observation_data = VInstance "Observation" slots /\
    dict_get "associations" slots = Some (VList [eating; resting]) /\
    VList [eating; resting] <>
    VList [from_dict Association eating; from_dict Association resting].
Proof.
  eexists. split; [reflexivity|]. split; [reflexivity|]. discriminate.
Qed.

(** C2, as stated, fails: one undeclared key makes [from_dict] return the
    whole dict as it came, where the same dict without that key becomes an
    [Association]. *)
Lemma from_dict_extra_key_not_ignored :
  from_dict Association (VDict [("link_name", VStr "eating"); ("extra", VInt 1)])
  = VDict [("link_name", VStr "eating"); ("extra", VInt 1)] /\
  from_dict Association (VDict [("link_name", VStr "eating")])
  = VInstance "Association"
      [("link_name", VStr "eating"); ("link_value", VNone);
       ("to_concept", VNone); ("mime_type", VNone); ("uuid", VNone)].
Proof. split; reflexivity. Qed.

(** C2, amended. For a dataclass and a dict: when some key of the dict is not
    a declared field, [from_dict] returns the dict unchanged; when every key
    is declared, it returns an instance with one slot per declared field, the
    converted value for a field that is present and [None] for one that is
    not. *)
Theorem from_dict_undeclared_key name fs items :
  NoDup (keys fs) -> NoDup (keys items) ->
  ((exists k, In k (keys items) /\ ~ In k (keys fs)) ->
   from_dict (TDataclass name fs) (VDict items) = VDict items) /\
  ((forall k, In k (keys items) -> In k (keys fs)) ->
   from_dict (TDataclass name fs) (VDict items) =
   VInstance name (map (slot_of items) fs)).
Proof.
  intros Hfs Hitems. rewrite from_dict_dataclass by assumption. split.
  - intros (k & Hin & Hout).
    destruct (forallb (fun k => dict_has k fs) (keys items)) eqn:Hall;
      [|reflexivity].
    rewrite forallb_forall in Hall. apply Hall in Hin.
    apply dict_has_In in Hin. contradiction.
  - intros Hall.
    replace (forallb (fun k => dict_has k fs) (keys items)) with true;
      [reflexivity|].
    symmetry. apply forallb_forall. intros k Hin.
    apply dict_has_In. now apply Hall.
Qed.

Lemma from_dict_undeclared_key_witness :
  from_dict Association (VDict [("link_name", VStr "eating"); ("extra", VInt 1)])
  = VDict [("link_name", VStr "eating"); ("extra", VInt 1)].
Proof.
  apply (from_dict_undeclared_key "Association"
           [("link_name", Tstr); ("link_value", Tstr); ("to_concept", Tstr);
            ("mime_type", Tstr); ("uuid", Tstr)]
           [("link_name", VStr "eating"); ("extra", VInt 1)]).
  - repeat constructor; simpl; intuition discriminate.
  - repeat constructor; simpl; intuition discriminate.
  - exists "extra". simpl. split; [tauto|intuition discriminate].
Defined.

(** C3. [from_dict] is a total function: it returns a value on every input.
    Whenever the input is not a dict, or the body of the [try] raises
    anything, the value returned is the input itself. *)
Theorem from_dict_degrades dtype v :
  is_mapping v = false \/ (exists e, from_dict_try dtype v = Raise e) ->
  from_dict dtype v = v.
Proof.
  rewrite from_dict_unfold. intros [Hnot|[e He]].
  - unfold from_dict_try. destruct (fields dtype); [|reflexivity].
    destruct v; try reflexivity. discriminate.
  - now rewrite He.
Qed.

Lemma from_dict_degrades_witness : from_dict Association (VInt 5) = VInt 5.
Proof.
  apply (from_dict_degrades Association (VInt 5)). left. reflexivity.
Defined.

(** ** Paths and addresses *)

Lemma split_not_nil sep s : split sep s <> [].
Proof.
  destruct s as [|c s]; simpl; [discriminate|].
  destruct (Ascii.eqb c sep); [discriminate|].
  destruct (split sep s); discriminate.
Qed.

Lemma split_app_sep sep p q :
  split sep (p ++ String sep q) = (split sep p ++ split sep q)%list.
Proof.
  induction p as [|c p IH]; simpl.
  - now rewrite Ascii.eqb_refl.
  - destruct (Ascii.eqb c sep); [now rewrite IH|].
    rewrite IH. destruct (split sep p) eqn:E; [|reflexivity].
    now destruct (split_not_nil sep p).
Qed.

Lemma segments_app_sep p q :
  segments (p ++ String "/" q) = (segments p ++ segments q)%list.
Proof. unfold segments. now rewrite split_app_sep, filter_app. Qed.

Lemma segments_empty : segments "" = [].
Proof. reflexivity. Qed.

Lemma segments_sep_variant p q : sep_variant p q -> segments p = segments q.
Proof.
  induction 1 as [p|p q _ IH|p q r _ IH1 _ IH2|p|p|p q].
  - reflexivity.
  - now symmetry.
  - now transitivity (segments q).
  - apply (segments_app_sep "" p).
  - rewrite segments_app_sep, segments_empty. apply app_nil_r.
  - change (p ++ "//" ++ q)%string with (p ++ String "/" ("/" ++ q))%string.
    change (p ++ "/" ++ q)%string with (p ++ String "/" q)%string.
    rewrite (segments_app_sep p ("/" ++ q)), (segments_app_sep p q).
    reflexivity.
Qed.

Lemma split_no_sep sep s : Forall (fun part => has_char sep part = false)
                                  (split sep s).
Proof.
  induction s as [|c s IH]; simpl.
  - now repeat constructor.
  - destruct (Ascii.eqb c sep) eqn:Ec; [now constructor|].
    destruct (split sep s) as [|part parts]; [now repeat constructor; simpl; rewrite Ec|].
    inversion IH; subst. constructor; [|assumption].
    simpl. now rewrite Ec.
Qed.

(** C5. [url_to] is the base address followed by the non-empty segments of
    the path, joined by single separators, none of the segments containing a
    separator; so two spellings of a path that differ only in leading,
    trailing or repeated separators give the same address. *)
Theorem url_to_separator_variants self p q :
  sep_variant p q ->
  url_to self p = url_to self q /\
  url_to self p = (_base_url self ++ String.concat "/" (segments p))%string /\
  Forall (fun part => part <> "" /\ has_char "/" part = false) (segments p).
Proof.
  intros Hpq. repeat split.
  - unfold url_to. fold (segments p). fold (segments q).
    now rewrite (segments_sep_variant Hpq).
  - unfold segments. apply Forall_forall. intros part Hin.
    apply filter_In in Hin. destruct Hin as [Hin Hne]. split.
    + intros ->. discriminate.
    + pose proof (split_no_sep "/" p) as Hall.
      rewrite Forall_forall in Hall. now apply Hall.
Qed.

Lemma url_to_separator_variants_witness :
  url_to m3_client "/a/b/" = url_to m3_client "a//b" /\
  url_to m3_client "/a/b/" = "http://m3.example/a/b" /\
  Forall (fun part => part <> "" /\ has_char "/" part = false)
         (segments "/a/b/").
Proof.
  apply (url_to_separator_variants m3_client (p := "/a/b/") (q := "a//b")).
  apply sv_trans with (q := "a/b").
  - apply sv_trans with (q := "a/b/").
    + exact (sv_leading "a/b/").
    + exact (sv_trailing "a/b").
  - apply sv_sym. exact (sv_repeated "a" "b").
Defined.

Lemma last_char_empty_iff s : last_char s = Raise IndexError <-> s = "".
Proof.
  split; [|now intros ->].
  induction s as [|c s IH]; [reflexivity|]. simpl.
  destruct s; [discriminate|]. intros H. apply IH in H. discriminate.
Qed.

Lemma last_char_total s : s <> "" -> exists c, last_char s = Ok c.
Proof.
  induction s as [|c s IH]; [congruence|]. intros _. simpl.
  destruct s; [now exists c|]. apply IH. discriminate.
Qed.

Lemma last_char_append s c : last_char (s ++ String c "") = Ok c.
Proof.
  induction s as [|c' s IH]; [reflexivity|]. simpl.
  destruct (s ++ String c "")%string eqn:E; [|exact IH].
  destruct s; discriminate.
Qed.

Lemma append_empty s : (s ++ "")%string = s.
Proof. induction s as [|c s IH]; simpl; congruence. Qed.

(** C8, as stated, fails on the empty address, for which no client is
    constructed at all; and an address that already ends in separators keeps
    all of them. *)
Lemma init_empty_address_no_client :
  __init__ "" = Raise IndexError /\
  __init__ "http://m3.example//" =
  Ok {| _base_url := "http://m3.example//"; _jwt := VStr "" |}.
Proof. split; reflexivity. Qed.

(** C8, amended. For a base address that is not empty, the constructor
    returns a client whose address is the given one, with one ['/'] appended
    when it does not end in ['/'] and unchanged when it does, so that it ends
    in ['/']; the token is the empty [str] and the client is not
    authenticated.  The constructor is a function of the address alone: it
    is given no transport and sends nothing. *)
Theorem init_normalizes base_url :
  base_url <> "" ->
  exists self,
    __init__ base_url = Ok self /\
    last_char (_base_url self) = Ok "/"%char /\
    (last_char base_url = Ok "/"%char -> _base_url self = base_url) /\
    (last_char base_url <> Ok "/"%char ->
     _base_url self = (base_url ++ "/")%string) /\
    _jwt self = VStr "" /\
    authenticated self = false.
Proof.
  intros Hne. destruct (last_char_total Hne) as [c Hc].
  unfold __init__. rewrite Hc. simpl. eexists. split; [reflexivity|]. simpl.
  destruct (Ascii.eqb_spec c "/") as [->|Hc'].
  - rewrite append_empty. repeat split; auto. congruence.
  - repeat split; auto.
    + apply last_char_append.
    + intros H. congruence.
Qed.

Lemma init_normalizes_witness :
  exists self,
    __init__ "http://m3.example" = Ok self /\
    last_char (_base_url self) = Ok "/"%char /\
    (last_char "http://m3.example" = Ok "/"%char ->
     _base_url self = "http://m3.example") /\
    (last_char "http://m3.example" <> Ok "/"%char ->
     _base_url self = "http://m3.example/") /\
    _jwt self = VStr "" /\
    authenticated self = false.
Proof. apply (@init_normalizes "http://m3.example"). discriminate. Defined.

(** C10. The constructor raises [IndexError] on the empty address, from the
    subscript [base_url[-1]], and so returns no client; it returns one for
    every other address, and only for those. *)
Theorem init_empty_address :
  last_char "" = Raise IndexError /\
  __init__ "" = Raise IndexError /\
  (forall base_url,
      (exists self, __init__ base_url = Ok self) <-> base_url <> "").
Proof.
  repeat split.
  - intros [self Hself] ->. discriminate.
  - intros Hne. destruct (last_char_total Hne) as [c Hc].
    unfold __init__. rewrite Hc. eexists. reflexivity.
Qed.

(** ** The status mapper *)

Lemma decode_outcomes b :
  decode b = Ok (string_of_list_byte b) /\ utf8_well_formed b = true \/
  decode b = Raise UnicodeDecodeError /\ utf8_well_formed b = false.
Proof. unfold decode. destruct (utf8_well_formed b); auto. Qed.

(** C4, as stated, fails on a response of status 400 (or 404) whose body is
    not UTF-8: decoding raises, and no [BadRequestError] is built. *)
Lemma handle_status_undecodable_body :
  handle_status {| status_code := 400; content := [Byte.xff];
                   json_body := None |} = Raise UnicodeDecodeError /\
  handle_status {| status_code := 404; content := [Byte.xff];
                   json_body := None |} = Raise UnicodeDecodeError.
Proof. split; reflexivity. Qed.

(** C4, amended. [handle_status] returns exactly when the status is 200;
    on 400 and 404 it decodes the body and raises [BadRequestError] or
    [NotFoundError] with the decoded text when the body is well-formed
    UTF-8, and the decoding error when it is not; on 504 it raises
    [TimeoutError], which has no payload; on any other status it raises
    [Exception] with the response itself.  It is a function of the response
    alone, so running it changes nothing in the state of a client. *)
Theorem handle_status_table response :
  (handle_status response = Ok tt <-> status_code response = 200%Z) /\
  (status_code response = 400%Z ->
   handle_status response =
   match decode (content response) with
   | Ok text => Raise (BadRequestError text)
   | Raise e => Raise e
   end) /\
  (status_code response = 404%Z ->
   handle_status response =
   match decode (content response) with
   | Ok text => Raise (NotFoundError text)
   | Raise e => Raise e
   end) /\
  (status_code response = 504%Z -> handle_status response = Raise TimeoutError) /\
  (~ In (status_code response) [200; 400; 404; 504]%Z ->
   handle_status response = Raise (Exception response)) /\
  (forall st, snd (lift (handle_status response) st) = st).
Proof.
  unfold handle_status. repeat split.
  - destruct (Z.eqb_spec (status_code response) 200); [auto|].
    repeat match goal with
           | |- context [(?a =? ?b)%Z] => destruct (a =? b)%Z
           | |- context [decode ?b] => destruct (decode b)
           end; simpl; discriminate.
  - intros ->. reflexivity.
  - intros ->. simpl. now destruct (decode (content response)).
  - intros ->. simpl. now destruct (decode (content response)).
  - intros ->. reflexivity.
  - simpl. intros Hout.
    repeat match goal with
           | |- context [(?a =? ?b)%Z] => destruct (Z.eqb_spec a b)
           end; try reflexivity; exfalso; apply Hout; auto.
Qed.

Lemma handle_status_table_witness :
  handle_status {| status_code := 404;
                   content := list_byte_of_string "no such id";
                   json_body := None |} = Raise (NotFoundError "no such id").
Proof.
  exact (proj1 (proj2 (proj2 (handle_status_table
           {| status_code := 404;
              content := list_byte_of_string "no such id";
              json_body := None |}))) eq_refl).
Defined.

(** ** The session *)

Section MonadFacts.
Context {A B : Type}.

Lemma preserves_ret (a : A) : preserves_client (ret a).
Proof. intros st. reflexivity. Qed.

Lemma preserves_raise e : preserves_client (@raise A e).
Proof. intros st. reflexivity. Qed.

Lemma preserves_lift (r : result A) : preserves_client (lift r).
Proof. intros st. reflexivity. Qed.

Lemma preserves_bind (m : M A) (k : A -> M B) :
  preserves_client m -> (forall a, preserves_client (k a)) ->
  preserves_client (bind m k).
Proof.
  intros Hm Hk st. unfold bind. specialize (Hm st).
  destruct (m st) as [[a|e] st']; simpl in *; [|exact Hm].
  now rewrite Hk.
Qed.
End MonadFacts.

Lemma preserves_get_self : preserves_client get_self.
Proof. intros st. reflexivity. Qed.

Lemma preserves_write_file path b : preserves_client (write_file path b).
Proof. intros st. reflexivity. Qed.

Lemma preserves_send transport req : preserves_client (send transport req).
Proof. intros st. reflexivity. Qed.

Create HintDb session.
#[export] Hint Resolve preserves_ret preserves_raise preserves_lift
  preserves_get_self preserves_write_file preserves_send : session.

Ltac preserves :=
  repeat (first [ apply preserves_bind; [|intros ?]
                | solve [auto with session] ]).

Section ClientFacts.
Variable transport : list Request -> Request -> result Response.
Variable open_rb : string -> result (list Byte.byte).
Variable open_wb : string -> result unit.
Variable py_str : value -> string.
Variable json_dumps : value -> result string.

Local Abbreviation run :=
  (perform transport open_rb open_wb py_str json_dumps).

Lemma preserves_checked endpoint k :
  (forall response, preserves_client (k response)) ->
  preserves_client (checked transport endpoint k).
Proof. intros Hk. unfold checked, requests_get. preserves. Qed.

Lemma preserves_unchecked endpoint p k :
  (forall response, preserves_client (k response)) ->
  preserves_client (unchecked transport endpoint p k).
Proof. intros Hk. unfold unchecked, requests_get. preserves. Qed.

Lemma preserves_one dtype response : preserves_client (one dtype response).
Proof. unfold one. preserves. Qed.

Lemma preserves_each dtype response : preserves_client (each dtype response).
Proof. unfold each. preserves. Qed.

Lemma preserves_raw response : preserves_client (raw response).
Proof. unfold raw. preserves. Qed.

(** Only [authenticate] assigns to the client. *)
Lemma perform_preserves_client op :
  (forall client_secret, op <> Authenticate client_secret) ->
  preserves_client (run op).
Proof.
  intros Hop. unfold run.
  destruct op; simpl;
    try (now destruct (Hop client_secret));
    try (first [apply preserves_checked | apply preserves_unchecked];
         intros ?;
         first [apply preserves_one | apply preserves_each
               | apply preserves_raw]).
  - preserves.
  - preserves.
  - preserves.
  - unfold create_ancillary_datum. preserves.
  - unfold create_ancillary_data_bulk. preserves.
  - unfold merge_ancillary_data. preserves.
  - unfold upload_framegrab. preserves.
  - unfold download_framegrab, requests_get. preserves.
Qed.

(** What [authenticate] does, by the answer to its request. *)
Lemma authenticate_cases client_secret st :
  authenticate transport client_secret st =
  let st' := {| client := client st;
                network := network st ++ [auth_request (client st) client_secret];
                written := written st |} in
  match transport (network st) (auth_request (client st) client_secret) with
  | Raise e => (Raise e, st')
  | Ok response =>
      if (status_code response =? 200)%Z then
        match (j <- json_of response ;; getitem j "access_token")%result with
        | Ok token =>
            (Ok tt, {| client := {| _base_url := _base_url (client st);
                                    _jwt := token |};
                       network := network st';
                       written := written st |})
        | Raise e => (Raise e, st')
        end
      else (Raise (AuthenticationError client_secret), st')
  end.
Proof.
  unfold authenticate, bind, get_self, send, auth_request. simpl.
  destruct (transport _ _) as [response|e]; [|reflexivity].
  destruct (status_code response =? 200)%Z; [|reflexivity].
  unfold lift, set_jwt.
  destruct (j <- json_of response ;; getitem j "access_token")%result;
    reflexivity.
Qed.

Lemma authenticated_empty_iff self :
  authenticated self = true <-> _jwt self <> VStr "".
Proof.
  unfold authenticated. destruct (_jwt self) as [| | | |[|c s]| | |];
    split; congruence.
Qed.

(** C6, amended. A client just constructed is not authenticated.  A call
    of [authenticate] sends one request; answered with status 200 and a
    JSON object that has an [access_token], it stores that token and
    leaves the address alone, and the client is authenticated afterwards
    exactly when the token is not the empty [str]; answered with any other
    status, it raises [AuthenticationError] with the secret in its message
    and leaves the client as it was; whenever it does not return, the
    client is as it was.  No other operation assigns to the client, so an
    authenticated client stops being authenticated only through an
    [authenticate] answered with status 200 and the empty [str] as
    token. *)
Theorem authenticate_session client_secret st :
  let out := authenticate transport client_secret st in
  let req := auth_request (client st) client_secret in
  (forall base_url self,
      __init__ base_url = Ok self -> authenticated self = false) /\
  network (snd out) = network st ++ [req] /\
  (forall response token,
      transport (network st) req = Ok response ->
      status_code response = 200%Z ->
      (j <- json_of response ;; getitem j "access_token")%result = Ok token ->
      fst out = Ok tt /\
      _jwt (client (snd out)) = token /\
      _base_url (client (snd out)) = _base_url (client st) /\
      (authenticated (client (snd out)) = true <-> token <> VStr "")) /\
  (forall response,
      transport (network st) req = Ok response ->
      status_code response <> 200%Z ->
      fst out = Raise (AuthenticationError client_secret) /\
      exn_message (AuthenticationError client_secret) =
      Some ("Authentication error, check client secret: " ++ client_secret)%string /\
      client (snd out) = client st) /\
  (fst out <> Ok tt -> client (snd out) = client st) /\
  (forall op st0,
      (forall s, op <> Authenticate s) ->
      client (snd (run op st0)) = client st0) /\
  (authenticated (client st) = true ->
   authenticated (client (snd out)) = false ->
   exists response,
     transport (network st) req = Ok response /\
     status_code response = 200%Z /\
     (j <- json_of response ;; getitem j "access_token")%result
     = Ok (VStr "")).
Proof.
  intros out req. subst out req. rewrite authenticate_cases. cbv zeta.
  split; [|split; [|split; [|split; [|split; [|split]]]]].
  - intros base_url self Hinit. unfold __init__ in Hinit.
    destruct (last_char base_url); [|discriminate].
    simpl in Hinit. now inversion Hinit.
  - destruct (transport _ _) as [response|e]; [|reflexivity].
    destruct (status_code response =? 200)%Z; [|reflexivity].
    now destruct (j <- json_of response ;; getitem j "access_token")%result.
  - intros response token -> Hstatus ->.
    rewrite Hstatus. simpl. repeat split; auto.
    + intros Hauth. now apply authenticated_empty_iff in Hauth.
    + intros Htoken. now apply authenticated_empty_iff.
  - intros response -> Hstatus.
    apply Z.eqb_neq in Hstatus. rewrite Hstatus. now repeat split.
  - destruct (transport _ _) as [response|e]; [|reflexivity].
    destruct (status_code response =? 200)%Z; [|reflexivity].
    destruct (j <- json_of response ;; getitem j "access_token")%result;
      [|reflexivity].
    intros H. now destruct H.
  - intros op st0 Hop. now apply perform_preserves_client.
  - destruct (transport _ _) as [response|e]; simpl; [|congruence].
    destruct (Z.eqb_spec (status_code response) 200); simpl; [|congruence].
    destruct (j <- json_of response ;; getitem j "access_token")%result
      as [token|e'] eqn:Htoken; simpl; [|congruence].
    intros _ Hafter. exists response. repeat split; auto.
    f_equal. unfold authenticated in Hafter. simpl in Hafter.
    destruct token as [| | | |[|c s]| | |]; congruence.
Qed.

Lemma authorization_header_missing self :
  authenticated self = false ->
  _authorization_header py_str self = Raise AuthenticationMissingError.
Proof. intros H. unfold _authorization_header. now rewrite H. Qed.

(** C7, amended. On a client that is not authenticated, every operation
    that attaches the authorization header leaves the state as it was (no
    request is sent, nothing is written, the client is untouched) and
    raises [AuthenticationMissingError]; [upload_framegrab] opens its image
    file before it reaches the header, and raises the error of [open]
    when the file cannot be opened.  On an authenticated client the header
    is [Authorization: BEARER] followed by the token. *)
Theorem privileged_requires_authentication op st :
  privileged op = true ->
  authenticated (client st) = false ->
  snd (run op st) = st /\
  match op with
  | UploadFramegrab image_file _ _ _ =>
      match open_rb image_file with
      | Ok _ => fst (run op st) = Raise AuthenticationMissingError
      | Raise e => fst (run op st) = Raise e
      end
  | _ => fst (run op st) = Raise AuthenticationMissingError
  end /\
  (forall self,
      authenticated self = true ->
      _authorization_header py_str self =
      Ok [("Authorization", ("BEARER " ++ format py_str (_jwt self))%string)]) /\
  (forall self token,
      _jwt self = VStr token -> token <> "" ->
      _authorization_header py_str self =
      Ok [("Authorization", ("BEARER " ++ token)%string)]).
Proof.
  intros Hpriv Hauth.
  pose proof (authorization_header_missing (client st) Hauth) as Hmissing.
  split; [|split; [|split]].
  - destruct op; try discriminate; unfold run; simpl.
    + unfold create_ancillary_datum, bind, get_self, lift. simpl.
      now rewrite Hmissing.
    + unfold create_ancillary_data_bulk, bind, get_self, lift. simpl.
      now rewrite Hmissing.
    + unfold merge_ancillary_data, bind, get_self, lift. simpl.
      now rewrite Hmissing.
    + unfold upload_framegrab, bind, get_self, lift. simpl.
      destruct (open_rb image_file); [|reflexivity]. now rewrite Hmissing.
  - destruct op; try discriminate; unfold run; simpl.
    + unfold create_ancillary_datum, bind, get_self, lift. simpl.
      now rewrite Hmissing.
    + unfold create_ancillary_data_bulk, bind, get_self, lift. simpl.
      now rewrite Hmissing.
    + unfold merge_ancillary_data, bind, get_self, lift. simpl.
      now rewrite Hmissing.
    + unfold upload_framegrab, bind, get_self, lift. simpl.
      destruct (open_rb image_file); [|reflexivity]. now rewrite Hmissing.
  - intros self Hself. unfold _authorization_header. now rewrite Hself.
  - intros self token Hjwt Hne. unfold _authorization_header, authenticated.
    rewrite Hjwt. simpl. now destruct token.
Qed.
End ClientFacts.

(** C6, as stated, fails: a client that holds a token and calls
    [authenticate] is not authenticated afterwards when the answer has
    status 200 and the empty [str] as access token. *)
Lemma authenticate_empty_token_unauthenticates :
  authenticated (client logged_in) = true /\
  status_code empty_token_response = 200%Z /\
  fst (authenticate (answers empty_token_response) "key" logged_in) = Ok tt /\
  authenticated
    (client (snd (authenticate (answers empty_token_response) "key" logged_in)))
  = false.
Proof. repeat split. Qed.

Lemma authenticate_session_witness :
  fst (authenticate (answers unauthorized_response) "key" logged_in)
  = Raise (AuthenticationError "key") /\
  exn_message (AuthenticationError "key")
  = Some "Authentication error, check client secret: key" /\
  client (snd (authenticate (answers unauthorized_response) "key" logged_in))
  = client logged_in.
Proof.
  destruct (authenticate_session (answers unauthorized_response) no_files
              read_only str_unreached dumps_unreached "key" logged_in)
    as (_ & _ & _ & Hother & _).
  apply (Hother unauthorized_response); [reflexivity|discriminate].
Defined.

(** C7, as stated, fails for [upload_framegrab]: on a client that is not
    authenticated and a file that cannot be opened, the error is the one of
    [open]. *)
Lemma upload_framegrab_opens_file_first :
  privileged (UploadFramegrab "missing.png" "camera" "deployment" "frame")
  = true /\
  authenticated (client fresh) = false /\
  upload_framegrab offline no_files str_unreached
                   "missing.png" "camera" "deployment" "frame" fresh
  = (Raise (FileNotFoundError "missing.png"), fresh).
Proof. repeat split. Qed.

Lemma privileged_requires_authentication_witness :
  snd (create_ancillary_datum offline str_unreached datum fresh) = fresh /\
  fst (create_ancillary_datum offline str_unreached datum fresh)
  = Raise AuthenticationMissingError.
Proof.
  destruct (@privileged_requires_authentication offline no_files read_only
              str_unreached dumps_unreached (CreateAncillaryDatum datum) fresh
              eq_refl eq_refl) as (Hstate & Hraise & _).
  split; [exact Hstate|exact Hraise].
Defined.

(** * Further properties *)

(** ** The deserializer *)

Lemma comprehension_ok_declared field_map its :
  forall acc kwargs,
    comprehension field_map its acc = Ok kwargs ->
    forall k, In k (keys its) -> dict_has k field_map = true.
Proof.
  intros acc kwargs Hok k Hin.
  destruct (forallb (fun k => dict_has k field_map) (keys its)) eqn:Hall.
  - rewrite forallb_forall in Hall. now apply Hall.
  - destruct (comprehension_undeclared field_map its acc Hall)
      as (k' & _ & _ & Hraise).
    congruence.
Qed.

Lemma dict_get_slot_of items fs fname ftype :
  NoDup (keys fs) -> In (fname, ftype) fs ->
  dict_get fname (map (slot_of items) fs) =
  Some (snd (slot_of items (fname, ftype))).
Proof.
  intros Hnd Hin. apply dict_get_In_nodup.
  - unfold keys. rewrite map_map. exact Hnd.
  - apply in_map_iff. now exists (fname, ftype).
Qed.

Lemma all_declared_forallb (fs : list (string * pytype))
      (items : list (string * value)) :
  (forall k, In k (keys items) -> In k (keys fs)) ->
  forallb (fun k => dict_has k fs) (keys items) = true.
Proof.
  intros Hall. apply forallb_forall. intros k Hin.
  apply dict_has_In. now apply Hall.
Qed.

Lemma from_dict_instance dtype class_name slots :
  from_dict dtype (VInstance class_name slots) = VInstance class_name slots.
Proof.
  rewrite from_dict_unfold. unfold from_dict_try.
  now destruct (fields dtype).
Qed.

(** X1. Deserializing twice is deserializing once: what [from_dict]
    returned is returned unchanged by a second call at the same type. *)
Theorem from_dict_idempotent dtype v :
  from_dict dtype (from_dict dtype v) = from_dict dtype v.
Proof.
  destruct (from_dict_outcome dtype v)
    as [Hraw|(name & fs & slots & _ & Hinst & _)].
  - now rewrite Hraw.
  - rewrite Hinst. apply from_dict_instance.
Qed.

(** X2. When [from_dict] returns anything but its input, the type is a
    dataclass, the input is a dict all of whose keys are declared fields,
    and the result is an instance of that class with exactly the declared
    fields, in declaration order, as its slots. *)
Theorem from_dict_converts_only_declared dtype v :
  from_dict dtype v <> v ->
  exists name fs items slots,
    dtype = TDataclass name fs /\
    v = VDict items /\
    (forall k, In k (keys items) -> In k (keys fs)) /\
    from_dict dtype v = VInstance name slots /\
    keys slots = keys fs.
Proof.
  rewrite from_dict_unfold. unfold from_dict_try.
  destruct dtype as [| | |t|name fs]; simpl; try congruence.
  destruct v as [| | | | | |items|]; simpl; try congruence.
  destruct (comprehension (dict_of fs) items []) as [kwargs|e] eqn:Hc;
    simpl; [|congruence].
  destruct (forallb (fun k => dict_has k fs) (keys kwargs)); [|congruence].
  intros _. exists name, fs, items. eexists. repeat split.
  - intros k Hin. apply dict_has_In.
    rewrite <- (dict_has_dict_of fs k).
    now apply (comprehension_ok_declared _ _ _ Hc).
  - unfold keys. rewrite map_map. reflexivity.
Qed.

Lemma from_dict_converts_only_declared_witness :
  exists name fs items slots,
    Association = TDataclass name fs /\
    VDict [("uuid", VStr "u")] = VDict items /\
    (forall k, In k (keys items) -> In k (keys fs)) /\
    from_dict Association (VDict [("uuid", VStr "u")]) = VInstance name slots /\
    keys slots = keys fs.
Proof.
  apply (@from_dict_converts_only_declared Association
           (VDict [("uuid", VStr "u")])).
  discriminate.
Defined.

(** X3. A field declared as a dataclass is converted on its own: when the
    record's keys are all declared, the slot of such a field holds an
    instance of the nested class if the nested dict has only declared keys,
    and the nested dict as it came if one of its keys is not declared; the
    record itself is an instance either way. *)
Theorem from_dict_nested_field name fs items fname iname ifs inner :
  NoDup (keys fs) -> NoDup (keys items) ->
  (forall k, In k (keys items) -> In k (keys fs)) ->
  In (fname, TDataclass iname ifs) fs ->
  dict_get fname items = Some (VDict inner) ->
  NoDup (keys ifs) -> NoDup (keys inner) ->
  exists slots,
    from_dict (TDataclass name fs) (VDict items) = VInstance name slots /\
    dict_get fname slots =
    Some (if forallb (fun k => dict_has k ifs) (keys inner)
          then VInstance iname (map (slot_of inner) ifs)
          else VDict inner).
Proof.
  intros Hfs Hitems Hall Hin Hget Hifs Hinner.
  exists (map (slot_of items) fs). split.
  - rewrite from_dict_dataclass by assumption.
    now rewrite all_declared_forallb.
  - rewrite (@dict_get_slot_of items fs fname _ Hfs Hin). unfold slot_of. simpl.
    rewrite Hget. now rewrite from_dict_dataclass.
Qed.

Lemma from_dict_nested_field_witness :
  exists slots,
    from_dict ImagedMoment
      (VDict [("uuid", VStr "m");
              ("ancillary_data", VDict [("depth_meters", VInt 900);
                                        ("unknown", VInt 0)])])
    = VInstance "ImagedMoment" slots /\
    dict_get "ancillary_data" slots
    = Some (VDict [("depth_meters", VInt 900); ("unknown", VInt 0)]).
Proof.
  apply (@from_dict_nested_field "ImagedMoment"
           [ ("recorded_date", Tstr); ("timecode", Tstr);
             ("video_reference_uuid", Tstr);
             ("observations", TList Observation);
             ("image_references", TList ImageReference);
             ("ancillary_data", CachedAncillaryDatum);
             ("last_updated_time", Tstr); ("uuid", Tstr) ]
           [("uuid", VStr "m");
            ("ancillary_data", VDict [("depth_meters", VInt 900);
                                      ("unknown", VInt 0)])]
           "ancillary_data" "CachedAncillaryDatum"
           [ ("uuid", Tstr); ("imaged_moment_uuid", Tstr);
             ("latitude", Tfloat); ("longitude", Tfloat);
             ("depth_meters", Tfloat); ("altitude_meters", Tfloat);
             ("crs", Tstr);
             ("salinity", Tfloat); ("temperature_celsius", Tfloat);
             ("oxygen", Tfloat); ("pressure_dbar", Tfloat);
             ("light_transmission", Tfloat);
             ("x", Tfloat); ("y", Tfloat); ("z", Tfloat);
             ("pose_position_units", Tstr);
             ("phi", Tfloat); ("theta", Tfloat); ("psi", Tfloat) ]
           [("depth_meters", VInt 900); ("unknown", VInt 0)]).
  - repeat constructor; simpl; intuition discriminate.
  - repeat constructor; simpl; intuition discriminate.
  - simpl. intros k [<-|[<-|[]]]; tauto.
  - simpl. tauto.
  - reflexivity.
  - repeat constructor; simpl; intuition discriminate.
  - repeat constructor; simpl; intuition discriminate.
Defined.

(** X4. A field whose declared type is not a dataclass ([str], [int],
    [float], [List[T]]) is stored as it came, whatever the value is: no
    type is checked and nothing is converted. *)
Theorem from_dict_plain_field_unchecked name fs items fname ftype :
  NoDup (keys fs) -> NoDup (keys items) ->
  (forall k, In k (keys items) -> In k (keys fs)) ->
  In (fname, ftype) fs ->
  not_dataclass ftype = true ->
  exists slots,
    from_dict (TDataclass name fs) (VDict items) = VInstance name slots /\
    dict_get fname slots =
    Some (match dict_get fname items with
          | Some val => val
          | None => VNone
          end).
Proof.
  intros Hfs Hitems Hall Hin Htype.
  exists (map (slot_of items) fs). split.
  - rewrite from_dict_dataclass by assumption.
    now rewrite all_declared_forallb.
  - rewrite (@dict_get_slot_of items fs fname _ Hfs Hin). unfold slot_of. simpl.
    destruct (dict_get fname items); [|reflexivity].
    rewrite from_dict_not_dataclass; [reflexivity|].
    intros n l ->. discriminate.
Qed.

Lemma from_dict_plain_field_unchecked_witness :
  exists slots,
    from_dict Association (VDict [("link_name", VInt 7)])
    = VInstance "Association" slots /\
    dict_get "link_name" slots = Some (VInt 7).
Proof.
  apply (@from_dict_plain_field_unchecked "Association"
           [("link_name", Tstr); ("link_value", Tstr); ("to_concept", Tstr);
            ("mime_type", Tstr); ("uuid", Tstr)]
           [("link_name", VInt 7)] "link_name" Tstr).
  - repeat constructor; simpl; intuition discriminate.
  - repeat constructor; simpl; intuition discriminate.
  - simpl. intros k [<-|[]]. tauto.
  - simpl. tauto.
  - reflexivity.
Defined.

Lemma dict_get_Some_In (V : Type) (d : list (string * V)) k v :
  dict_get k d = Some v -> In (k, v) d.
Proof.
  induction d as [|[k' v'] d IH]; simpl; [discriminate|].
  destruct (String.eqb_spec k' k) as [->|Hne].
  - intros H. inversion H. now left.
  - intros H. right. now apply IH.
Qed.

Lemma dict_get_permutation (V : Type) (d d' : list (string * V)) k :
  NoDup (keys d) -> Permutation d d' -> dict_get k d = dict_get k d'.
Proof.
  intros Hnd Hperm.
  assert (Hnd' : NoDup (keys d')).
  { eapply Permutation_NoDup; [|exact Hnd]. now apply Permutation_map. }
  destruct (dict_get k d) as [v|] eqn:E.
  - symmetry. apply dict_get_In_nodup; [exact Hnd'|].
    eapply Permutation_in; [exact Hperm|]. now apply dict_get_Some_In.
  - destruct (dict_get k d') as [v'|] eqn:E'; [|reflexivity].
    apply dict_get_Some_In in E'.
    apply (Permutation_in _ (Permutation_sym Hperm)) in E'.
    rewrite (dict_get_In_nodup d k v' Hnd E') in E. discriminate.
Qed.

(** X5. The order of the keys in the input does not matter: two dicts
    with the same items in different orders, all of them declared fields,
    deserialize to the same instance. *)
Theorem from_dict_key_order name fs items items' :
  NoDup (keys fs) -> NoDup (keys items) ->
  (forall k, In k (keys items) -> In k (keys fs)) ->
  Permutation items items' ->
  from_dict (TDataclass name fs) (VDict items) =
  from_dict (TDataclass name fs) (VDict items').
Proof.
  intros Hfs Hitems Hall Hperm.
  assert (Hkeys : Permutation (keys items) (keys items'))
    by now apply Permutation_map.
  assert (Hitems' : NoDup (keys items'))
    by (eapply Permutation_NoDup; eassumption).
  rewrite !from_dict_dataclass by assumption.
  rewrite !all_declared_forallb.
  - f_equal. apply map_ext. intros f. unfold slot_of.
    now rewrite (dict_get_permutation (fst f) Hitems Hperm).
  - intros k Hin. apply Hall.
    eapply Permutation_in; [apply Permutation_sym; exact Hkeys|exact Hin].
  - exact Hall.
Qed.

Lemma from_dict_key_order_witness :
  from_dict Association
    (VDict [("link_name", VStr "eating"); ("uuid", VStr "u")]) =
  from_dict Association
    (VDict [("uuid", VStr "u"); ("link_name", VStr "eating")]).
Proof.
  apply (@from_dict_key_order "Association"
           [("link_name", Tstr); ("link_value", Tstr); ("to_concept", Tstr);
            ("mime_type", Tstr); ("uuid", Tstr)]
           [("link_name", VStr "eating"); ("uuid", VStr "u")]
           [("uuid", VStr "u"); ("link_name", VStr "eating")]).
  - repeat constructor; simpl; intuition discriminate.
  - repeat constructor; simpl; intuition discriminate.
  - simpl. intros k [<-|[<-|[]]]; tauto.
  - apply perm_swap.
Defined.

(** ** The projection and the deserializer together *)










(** ** The projection alone *)

Lemma _asdict_inner_list l :
  _asdict_inner (VList l) = VList (map _asdict_inner l).
Proof. reflexivity. Qed.

Lemma _asdict_inner_dict d :
  _asdict_inner (VDict d) = VDict (map copied d).
Proof.
  simpl. f_equal. induction d as [|[k v] d IH]; [reflexivity|].
  now rewrite IH.
Qed.

Lemma plain_copied_all (d : list (string * value)) :
  Forall (fun kv => plain (_asdict_inner (snd kv)) = true) d ->
  forallb (fun kv => plain (snd kv)) (map copied d) = true.
Proof.
  induction 1 as [|kv d Hkv _ IH]; simpl; [reflexivity|].
  now rewrite Hkv, IH.
Qed.

Lemma _asdict_inner_plain v : plain (_asdict_inner v) = true.
Proof.
  induction v as [| | | | |l IH|d IH|c d IH] using value_induction;
    try reflexivity.
  - rewrite _asdict_inner_list. simpl.
    induction IH as [|v l Hv _ IHl]; simpl; [reflexivity|].
    rewrite Hv. exact IHl.
  - rewrite _asdict_inner_dict. simpl. now apply plain_copied_all.
  - rewrite _asdict_inner_instance. simpl. now apply plain_copied_all.
Qed.

Section DictSetFacts.
Variable V : Type.
Variable P : V -> Prop.

Lemma Forall_dict_set d k v :
  Forall (fun kv => P (snd kv)) d -> P v ->
  Forall (fun kv => P (snd kv)) (dict_set k v d).
Proof.
  intros Hd Hv. induction Hd as [|[k' w] d Hw Hd IH]; simpl.
  - now repeat constructor.
  - destruct (String.eqb k' k); now constructor.
Qed.

Lemma Forall_fold_dict_set d :
  forall acc,
    Forall (fun kv => P (snd kv)) acc ->
    Forall (fun kv => P (snd kv)) d ->
    Forall (fun kv => P (snd kv))
           (fold_left (fun a kv => dict_set (fst kv) (snd kv) a) d acc).
Proof.
  induction d as [|[k v] d IH]; simpl; intros acc Hacc Hd; [exact Hacc|].
  inversion Hd; subst. apply IH; [|assumption].
  now apply Forall_dict_set.
Qed.

Lemma Forall_dict_of d :
  Forall (fun kv => P (snd kv)) d ->
  Forall (fun kv => P (snd kv)) (dict_of d).
Proof. intros Hd. now apply Forall_fold_dict_set. Qed.
End DictSetFacts.

Lemma non_null_projection_plain self d :
  non_null_projection self = Ok d ->
  exists items,
    d = VDict items /\
    Forall (fun kv => plain (snd kv) = true /\ snd kv <> VNone) items.
Proof.
  unfold non_null_projection, asdict.
  destruct self as [| | | | | | |c slots]; try discriminate.
  rewrite _asdict_inner_instance. simpl. intros H. inversion H; subst.
  eexists. split; [reflexivity|].
  apply (@Forall_dict_of value (fun v => plain v = true /\ v <> VNone)).
  apply Forall_forall. intros [k v] Hin.
  apply filter_In in Hin. destruct Hin as [Hin Hnn]. simpl in *. split.
  - apply in_map_iff in Hin. destruct Hin as ([k' v'] & Heq & _).
    inversion Heq; subst. apply _asdict_inner_plain.
  - intros ->. discriminate.
Qed.

(** X8. Whatever a datum holds, its [properties] are plain data: a dict
    in which no value is [None] and no value contains a dataclass instance
    at any depth (nested instances have become dicts). *)
Theorem properties_plain self d :
  properties self = Ok d ->
  exists items,
    d = VDict items /\
    Forall (fun kv => plain (snd kv) = true /\ snd kv <> VNone) items.
Proof.
  unfold properties. destruct self as [| | | | | | |c slots]; try discriminate.
  destruct (String.eqb c "CachedAncillaryDatum"); [|discriminate].
  apply non_null_projection_plain.
Qed.

Lemma properties_plain_witness :
  exists items,
    VDict [("latitude", VInt 36)] = VDict items /\
    Forall (fun kv => plain (snd kv) = true /\ snd kv <> VNone) items.
Proof.
  apply (@properties_plain datum (VDict [("latitude", VInt 36)])).
  reflexivity.
Defined.

(** ** Addresses *)

Lemma split_without_sep sep s : has_char sep s = false -> split sep s = [s].
Proof.
  induction s as [|c s IH]; simpl; [reflexivity|].
  destruct (Ascii.eqb c sep); simpl; [discriminate|].
  intros H. now rewrite IH.
Qed.

Lemma split_concat parts :
  Forall (fun part => has_char "/" part = false) parts ->
  parts <> [] ->
  split "/" (String.concat "/" parts) = parts.
Proof.
  induction 1 as [|part parts Hpart Hparts IH]; [congruence|]. intros _.
  destruct parts as [|part' parts'].
  - simpl. now apply split_without_sep.
  - change (String.concat "/" (part :: part' :: parts'))
      with (part ++ String "/" (String.concat "/" (part' :: parts')))%string.
    rewrite split_app_sep, split_without_sep by exact Hpart.
    rewrite IH by discriminate. reflexivity.
Qed.

Lemma segments_normal p :
  Forall (fun part => has_char "/" part = false) (segments p) /\
  Forall (fun part => nonempty part = true) (segments p).
Proof.
  unfold segments. split; apply Forall_forall; intros part Hin;
    apply filter_In in Hin; destruct Hin as [Hin Hne]; [|exact Hne].
  pose proof (split_no_sep "/" p) as Hall.
  rewrite Forall_forall in Hall. now apply Hall.
Qed.

Lemma filter_all_true (A : Type) (f : A -> bool) l :
  Forall (fun x => f x = true) l -> filter f l = l.
Proof.
  induction 1 as [|x l Hx _ IH]; simpl; [reflexivity|]. now rewrite Hx, IH.
Qed.

(** X9. The path [url_to] appends is in normal form: splitting it again
    gives exactly the kept segments, none of them empty (so the path has no
    leading, trailing or doubled separator), and [url_to] of that path is
    the same address; an endpoint without segments gives the base address
    itself. *)
Theorem url_to_normal_form self p :
  (segments p <> [] ->
   split "/" (String.concat "/" (segments p)) = segments p) /\
  (segments p = [] -> url_to self p = _base_url self) /\
  url_to self (String.concat "/" (segments p)) = url_to self p.
Proof.
  destruct (segments_normal p) as [Hsep Hne].
  split; [|split].
  - intros Hnil. now apply split_concat.
  - intros Hnil. unfold url_to. fold (segments p). rewrite Hnil. simpl.
    apply append_empty.
  - unfold url_to. fold (segments p).
    fold (segments (String.concat "/" (segments p))). f_equal. f_equal.
    destruct (segments p) as [|part parts] eqn:E; [reflexivity|].
    unfold segments at 1. rewrite split_concat by (assumption || discriminate).
    now apply filter_all_true.
Qed.

(** X10. Constructing a client from the address of a constructed client
    gives the same client: a normalized address is left as it is. *)
Theorem init_idempotent base_url self :
  __init__ base_url = Ok self ->
  __init__ (_base_url self) = Ok self.
Proof.
  unfold __init__. destruct (last_char base_url) as [c|e] eqn:Hc;
    [|discriminate].
  simpl. intros H. inversion H; subst; clear H. simpl.
  assert (Hlast : last_char (base_url ++ (if Ascii.eqb c "/" then "" else "/"))
                  = Ok "/"%char).
  { destruct (Ascii.eqb_spec c "/") as [->|Hne].
    - now rewrite append_empty.
    - apply last_char_append. }
  rewrite Hlast. simpl. now rewrite append_empty.
Qed.

Lemma init_idempotent_witness :
  __init__ "http://m3.example/" = Ok m3_client.
Proof.
  apply (@init_idempotent "http://m3.example" m3_client). reflexivity.
Defined.

Lemma dict_get_set_same (V : Type) (d : list (string * V)) k v :
  dict_get k (dict_set k v d) = Some v.
Proof.
  induction d as [|[k' w] d IH]; simpl.
  - now rewrite String.eqb_refl.
  - destruct (String.eqb k' k) eqn:E; simpl; rewrite E; [reflexivity|exact IH].
Qed.

(** ** The calls of the services *)

Ltac run_cases :=
  repeat match goal with
         | |- context [match ?x with _ => _ end] => destruct x eqn:?; simpl
         end.

Lemma handle_status_raises response :
  status_code response <> 200%Z -> exists e, handle_status response = Raise e.
Proof.
  intros Hne. unfold handle_status, rbind. apply Z.eqb_neq in Hne.
  rewrite Hne. run_cases; eauto.
Qed.

Lemma handle_status_ok response :
  status_code response = 200%Z -> handle_status response = Ok tt.
Proof. intros H. unfold handle_status. now rewrite H. Qed.

Lemma from_dict_keys_as_values dtype (ks : list string) :
  map (from_dict dtype) (map VStr ks) = map VStr ks.
Proof.
  rewrite map_map. apply map_ext. intros k.
  rewrite from_dict_unfold. unfold from_dict_try.
  now destruct (fields dtype).
Qed.

Section ServiceFacts.
Variable transport : list Request -> Request -> result Response.
Variable open_rb : string -> result (list Byte.byte).
Variable open_wb : string -> result unit.
Variable py_str : value -> string.
Variable json_dumps : value -> result string.

(** X11. The getters of annotations and of video reference information,
    [merge_ancillary_data] and [download_framegrab] never look at the
    status of the answer: with the status of every answer replaced by any
    other, each of them returns or raises the same and leaves the same
    state, so an error answer is parsed (or written to the file) like a
    successful one. *)
Theorem status_ignored op code st :
  ignores_status op = true ->
  perform (with_status code transport) open_rb open_wb py_str json_dumps op st
  = perform transport open_rb open_wb py_str json_dumps op st.
Proof.
  intros Hop.
  destruct op; try discriminate; simpl;
    unfold merge_ancillary_data, download_framegrab,
      get_annotation, get_annotations_videoreference,
      get_annotations_imagereference, get_annotations_videoreference_chunked,
      get_vri_all, get_vri_uuid, get_videoreferenceuuid_all,
      get_vri_videoreferenceuuid, get_missionids, get_vri_missionid,
      get_missioncontacts, get_vri_missioncontact,
      unchecked, requests_get, one, each, raw,
      bind, send, get_self, lift, ret, write_file, with_status, json_of;
    simpl; run_cases;
    repeat match goal with
           | H : Ok _ = Ok _ |- _ => inversion H; clear H; subst
           end;
    simpl in *; congruence.
Qed.


(** X12. A getter that calls [handle_status] returns nothing on an answer
    whose status is not 200: it raises what [handle_status] raises for that
    answer, the body is never parsed, and nothing is written. *)
Theorem checked_getter_rejects op response st :
  checked_getter op = true ->
  status_code response <> 200%Z ->
  exists e,
    handle_status response = Raise e /\
    fst (perform (answers response) open_rb open_wb py_str json_dumps op st)
    = Raise e /\
    written (snd (perform (answers response) open_rb open_wb py_str
                          json_dumps op st)) = written st.
Proof.
  intros Hop Hstatus.
  destruct (handle_status_raises response Hstatus) as [e He].
  exists e. split; [exact He|].
  destruct op; try discriminate; simpl;
    unfold get_ancillary_data, get_ancillary_data_videoreference,
      get_ancillary_data_imagedmoment, get_ancillary_data_observation,
      get_framegrab, get_media_videoreference,
      get_media_videoreference_filename, get_media_videosequence_name,
      get_media_video, get_media_camera_timestamps, get_media_concurrent,
      get_media_camera_datetime, get_media_uri,
      checked, requests_get, bind, send, get_self, lift, answers;
    simpl; rewrite He; split; reflexivity.
Qed.

(** X13. A getter that returns a list converts what iterating over the
    parsed body gives, element by element: a JSON array gives a list of
    the same length in the same order; a JSON object gives the list of its
    keys, as [str], and no record at all; a body that cannot be iterated
    raises. *)
Theorem list_getter_elements op dtype response j st :
  list_getter op = Some dtype ->
  status_code response = 200%Z ->
  json_body response = Some j ->
  fst (perform (answers response) open_rb open_wb py_str json_dumps op st)
  = (its <- iterate j ;; Ok (VList (map (from_dict dtype) its)))%result /\
  (forall l,
      j = VList l ->
      fst (perform (answers response) open_rb open_wb py_str json_dumps op st)
      = Ok (VList (map (from_dict dtype) l))) /\
  (forall d,
      j = VDict d ->
      fst (perform (answers response) open_rb open_wb py_str json_dumps op st)
      = Ok (VList (map VStr (keys d)))).
Proof.
  intros Hop Hstatus Hbody.
  assert (Hmain :
            fst (perform (answers response) open_rb open_wb py_str
                         json_dumps op st)
            = (its <- iterate j ;;
               Ok (VList (map (from_dict dtype) its)))%result).
  { pose proof (handle_status_ok response Hstatus) as Hok.
    destruct op; try discriminate; simpl in Hop; inversion Hop; subst; simpl;
      unfold get_annotations_videoreference, get_annotations_imagereference,
        get_annotations_videoreference_chunked, get_vri_all,
        get_vri_videoreferenceuuid, get_vri_missionid,
        get_vri_missioncontact, get_media_videosequence_name,
        get_media_video, get_media_camera_timestamps, get_media_concurrent,
        get_media_camera_datetime,
        checked, unchecked, requests_get, each, bind, send, get_self, lift,
        answers, json_of, rbind, ret;
      simpl; rewrite ?Hok, Hbody; simpl; now destruct (iterate j). }
  split; [exact Hmain|]. split.
  - intros l ->. rewrite Hmain. reflexivity.
  - intros d ->. rewrite Hmain. simpl. now rewrite from_dict_keys_as_values.
Qed.

(** X14. [download_framegrab] writes the body of whatever answer it gets,
    without looking at the status: once the request is answered and the
    file can be opened for writing, the call returns [None], the file
    holds exactly the bytes of the body, and one request has been sent. *)
Theorem download_writes_any_answer image_file camera_id deployment_id name
        st response :
  transport (network st)
            (download_request (client st) camera_id deployment_id name)
  = Ok response ->
  open_wb image_file = Ok tt ->
  download_framegrab transport open_wb image_file camera_id deployment_id
                     name st
  = (Ok VNone,
     {| client := client st;
        network := network st
                   ++ [download_request (client st) camera_id deployment_id
                                        name];
        written := dict_set image_file (content response) (written st) |}) /\
  dict_get image_file
    (written (snd (download_framegrab transport open_wb image_file camera_id
                                      deployment_id name st)))
  = Some (content response).
Proof.
  intros Hanswer Hopen.
  assert (Hrun :
            download_framegrab transport open_wb image_file camera_id
                               deployment_id name st
            = (Ok VNone,
               {| client := client st;
                  network := network st
                             ++ [download_request (client st) camera_id
                                                  deployment_id name];
                  written := dict_set image_file (content response)
                                      (written st) |})).
  { unfold download_request in *.
    cbv beta iota delta [download_framegrab requests_get bind send get_self
                         lift write_file ret].
    rewrite Hanswer. cbv beta iota. now rewrite Hopen. }
  split; [exact Hrun|]. rewrite Hrun. simpl. apply dict_get_set_same.
Qed.

(** X15. [merge_ancillary_data] on an authenticated client sends one PUT
    with the dumped projections and returns [None] for every answer,
    whatever its status; the query parameter [window] is sent exactly when
    [window] is greater than zero. *)
Theorem merge_discards_answer uuid ancillary_data window st h ps text :
  _authorization_header py_str (client st) = Ok h ->
  properties_of_each ancillary_data = Ok ps ->
  json_dumps (VList ps) = Ok text ->
  merge_ancillary_data transport py_str json_dumps uuid ancillary_data
                       window st
  = (match transport (network st)
                     (merge_request (client st) h uuid window text) with
     | Ok _ => Ok VNone
     | Raise e => Raise e
     end,
     {| client := client st;
        network := network st
                   ++ [merge_request (client st) h uuid window text];
        written := written st |}) /\
  (params (merge_request (client st) h uuid window text) = None
   <-> (window <= 0)%Z).
Proof.
  intros Hh Hps Htext. split.
  - unfold merge_ancillary_data, bind, send, get_self, lift, ret, rbind.
    simpl. rewrite Hh, Hps, Htext. simpl. unfold merge_request.
    now destruct (transport _ _).
  - unfold merge_request. simpl.
    destruct (Z.gtb_spec window 0); split; try discriminate; auto; lia.
Qed.

(** X16. [upload_framegrab] does not deserialize the answer: on an
    authenticated client, a readable file and an answer of status 200, the
    [ImageParams] returned has the whole parsed body as its [uri] and
    [None] in every other field. *)
Theorem upload_framegrab_result image_file camera_id deployment_id name
        st file h response j :
  open_rb image_file = Ok file ->
  _authorization_header py_str (client st) = Ok h ->
  status_code response = 200%Z ->
  json_body response = Some j ->
  fst (upload_framegrab (answers response) open_rb py_str image_file
                        camera_id deployment_id name st)
  = Ok (VInstance "ImageParams"
          [("uri", j); ("cameraId", VNone); ("deploymentId", VNone);
           ("name", VNone)]).
Proof.
  intros Hfile Hh Hstatus Hbody.
  unfold upload_framegrab, bind, send, get_self, lift, ret, answers. simpl.
  rewrite Hfile. simpl. rewrite Hh. simpl.
  rewrite (handle_status_ok response Hstatus). simpl.
  unfold json_of. now rewrite Hbody.
Qed.

Lemma properties_of_each_not_datum ancillary_data :
  (exists x, In x ancillary_data /\ is_datum x = false) ->
  properties_of_each ancillary_data = Raise AttributeError.
Proof.
  induction ancillary_data as [|y l IH]; intros (x & Hin & Hx);
    [contradiction|]. simpl.
  destruct (is_datum y) eqn:Hy.
  - destruct Hin as [->|Hin]; [congruence|].
    rewrite IH by eauto.
    destruct y as [| | | | | | |c slots]; try discriminate. simpl in Hy.
    unfold properties. rewrite Hy.
    unfold non_null_projection, asdict, rbind.
    rewrite _asdict_inner_instance. reflexivity.
  - unfold rbind, properties.
    destruct y as [| | | | | | |c slots]; try reflexivity.
    simpl in Hy. now rewrite Hy.
Qed.

(** X17. One element that is not a [CachedAncillaryDatum] makes the two
    calls that take a collection of data raise [AttributeError] on an
    authenticated client before anything is sent: the state is as it
    was. *)
Theorem collection_needs_data ancillary_data uuid window st h :
  _authorization_header py_str (client st) = Ok h ->
  (exists x, In x ancillary_data /\ is_datum x = false) ->
  create_ancillary_data_bulk transport py_str json_dumps ancillary_data st
  = (Raise AttributeError, st) /\
  merge_ancillary_data transport py_str json_dumps uuid ancillary_data
                       window st
  = (Raise AttributeError, st).
Proof.
  intros Hh Hbad.
  pose proof (properties_of_each_not_datum ancillary_data Hbad) as Hraise.
  unfold create_ancillary_data_bulk, merge_ancillary_data, bind, get_self,
    lift, rbind.
  simpl. rewrite Hh. simpl. rewrite Hraise. split; reflexivity.
Qed.

(** X18. Authentication and the calls that need it compose: after an
    [authenticate] answered with status 200 and a non-empty [str] as access
    token, the authorization header is [BEARER] followed by that token, and
    a following [create_ancillary_datum] sends, as the second request, a
    POST to [v1/ancillarydata] under the base address with that header and
    the projection of the datum as form data. *)
Theorem authenticate_then_create client_secret st response d token :
  transport (network st) (auth_request (client st) client_secret)
  = Ok response ->
  status_code response = 200%Z ->
  json_body response = Some (VDict d) ->
  dict_get "access_token" d = Some (VStr token) ->
  token <> "" ->
  _authorization_header py_str
    (client (snd (authenticate transport client_secret st)))
  = Ok [("Authorization", ("BEARER " ++ token)%string)] /\
  forall ancillary_datum p,
    properties ancillary_datum = Ok p ->
    network (snd (create_ancillary_datum transport py_str ancillary_datum
                    (snd (authenticate transport client_secret st))))
    = network st
      ++ [auth_request (client st) client_secret;
          {| method := POST;
             url := url_to (client st) "v1/ancillarydata";
             headers := Some [("Authorization",
                               ("BEARER " ++ token)%string)];
             params := None; data := Some p; json := None;
             files := None |}].
Proof.
  intros Hanswer Hstatus Hbody Htoken Hne.
  rewrite (@authenticate_cases transport client_secret st). cbv zeta.
  rewrite Hanswer, Hstatus. unfold json_of, rbind, getitem.
  rewrite Hbody, Htoken. simpl.
  assert (Hheader :
            _authorization_header py_str
              {| _base_url := _base_url (client st); _jwt := VStr token |}
            = Ok [("Authorization", ("BEARER " ++ token)%string)]).
  { unfold _authorization_header, authenticated. simpl. now destruct token. }
  split; [exact Hheader|].
  intros ancillary_datum p Hp.
  unfold create_ancillary_datum, bind, get_self, lift, send. simpl.
  rewrite Hheader. simpl. rewrite Hp. simpl.
  clear Hanswer.
  destruct (transport _ _) as [a|e]; simpl;
    [destruct (handle_status a); simpl|];
    rewrite <- app_assoc; reflexivity.
Qed.

(** X19. An answer of status 200 that carries no usable token does not
    give an [AuthenticationError]: [authenticate] raises the error of
    reading the body ([JSONDecodeError] when the body is not JSON,
    [TypeError] when it is not an object, [KeyError] when the object has no
    [access_token]), and the client keeps the token it had. *)
Theorem authenticate_unusable_body client_secret st response :
  transport (network st) (auth_request (client st) client_secret)
  = Ok response ->
  status_code response = 200%Z ->
  (json_body response = None ->
   fst (authenticate transport client_secret st) = Raise JSONDecodeError) /\
  (forall j,
      json_body response = Some j -> is_mapping j = false ->
      fst (authenticate transport client_secret st) = Raise TypeError) /\
  (forall d,
      json_body response = Some (VDict d) ->
      dict_get "access_token" d = None ->
      fst (authenticate transport client_secret st)
      = Raise (KeyError "access_token")) /\
  (fst (authenticate transport client_secret st) <> Ok tt ->
   client (snd (authenticate transport client_secret st)) = client st).
Proof.
  intros Hanswer Hstatus.
  rewrite (@authenticate_cases transport client_secret st). cbv zeta.
  rewrite Hanswer, Hstatus. unfold json_of, rbind, getitem. simpl.
  split; [|split; [|split]].
  - intros ->. reflexivity.
  - intros j -> Hj. now destruct j.
  - intros d -> ->. reflexivity.
  - destruct (json_body response) as [j|]; [|reflexivity].
    destruct j; try reflexivity.
    destruct (dict_get "access_token" items); [|reflexivity].
    simpl. congruence.
Qed.

Lemma prefix_append s t : String.prefix s (s ++ t) = true.
Proof.
  induction s as [|c s IH]; simpl; [now destruct t|].
  destruct (ascii_dec c c); [exact IH|congruence].
Qed.

Lemma prefix_url_to self endpoint :
  String.prefix (_base_url self) (url_to self endpoint) = true.
Proof. apply prefix_append. Qed.

(** One operation sends at most one request, to an address under the base
    address, and leaves the base address alone. *)
Lemma perform_one_request op st :
  let st' := snd (perform transport open_rb open_wb py_str json_dumps op st) in
  _base_url (client st') = _base_url (client st) /\
  exists reqs,
    network st' = network st ++ reqs /\
    length reqs <= 1 /\
    Forall (fun r => String.prefix (_base_url (client st)) (url r) = true)
           reqs.
Proof.
  cbv zeta.
  destruct op; simpl;
    unfold authenticate, create_ancillary_datum, create_ancillary_data_bulk,
      merge_ancillary_data, upload_framegrab, download_framegrab,
      get_ancillary_data, get_ancillary_data_videoreference,
      get_ancillary_data_imagedmoment, get_ancillary_data_observation,
      get_annotation, get_annotations_videoreference,
      get_annotations_imagereference, get_annotations_videoreference_chunked,
      get_vri_all, get_vri_uuid, get_videoreferenceuuid_all,
      get_vri_videoreferenceuuid, get_missionids, get_vri_missionid,
      get_missioncontacts, get_vri_missioncontact,
      get_framegrab, get_media_videoreference,
      get_media_videoreference_filename, get_media_videosequence_name,
      get_media_video, get_media_camera_timestamps, get_media_concurrent,
      get_media_camera_datetime, get_media_uri,
      checked, unchecked, requests_get, one, each, raw,
      bind, send, get_self, set_jwt, lift, ret, raise, write_file,
      auth_request;
    cbv beta iota;
    repeat match goal with
           | |- context [match ?x with _ => _ end] =>
               lazymatch x with
               | context [match _ with _ => _ end] => fail
               | _ => destruct x; cbv beta iota
               end
           end;
    cbn [snd fst client network written _base_url _jwt];
    (split; [reflexivity|]);
    first [ exists (@nil Request); rewrite app_nil_r;
            split; [reflexivity|]; split; [simpl; lia|constructor]
          | eexists; split; [reflexivity|];
            split; [simpl; lia|];
            repeat constructor; cbn [url]; apply prefix_url_to ].
Qed.

(** X20. Through any sequence of operations, whatever they return or
    raise, the base address of the client stays what it was, the requests
    already sent stay in the log, at most one request per operation is
    added, and every request goes to an address that starts with the base
    address. *)
Theorem run_all_requests ops st :
  _base_url (client (run_all transport open_rb open_wb py_str json_dumps
                             ops st))
  = _base_url (client st) /\
  exists reqs,
    network (run_all transport open_rb open_wb py_str json_dumps ops st)
    = network st ++ reqs /\
    length reqs <= length ops /\
    Forall (fun r => String.prefix (_base_url (client st)) (url r) = true)
           reqs.
Proof.
  revert st. induction ops as [|op ops IH]; intros st; simpl.
  - split; [reflexivity|]. exists []. rewrite app_nil_r.
    repeat split; auto.
  - destruct (perform_one_request op st) as (Hbase & r1 & Hnet & Hlen & Hall).
    destruct (IH (snd (perform transport open_rb open_wb py_str json_dumps
                               op st)))
      as (Hbase' & r2 & Hnet' & Hlen' & Hall').
    unfold run_all in *. split; [congruence|].
    exists (r1 ++ r2). rewrite Hnet', Hnet, app_assoc.
    split; [reflexivity|]. split.
    + rewrite length_app. lia.
    + apply Forall_app. split; [exact Hall|]. now rewrite <- Hbase.
Qed.

Lemma perform_keeps_authenticated op st :
  no_empty_token transport ->
  authenticated (client st) = true ->
  authenticated
    (client (snd (perform transport open_rb open_wb py_str json_dumps op st)))
  = true.
Proof.
  intros Htransport Hauth.
  destruct op;
    try (rewrite (@perform_preserves_client transport open_rb open_wb py_str
                    json_dumps _); [exact Hauth|discriminate]).
  simpl. unfold bind at 1.
  rewrite (@authenticate_cases transport client_secret st). cbv zeta.
  destruct (transport (network st) (auth_request (client st) client_secret))
    as [response|e] eqn:Hanswer; [|exact Hauth].
  destruct (Z.eqb_spec (status_code response) 200) as [Hstatus|_];
    [|exact Hauth].
  pose proof (Htransport _ _ _ Hanswer Hstatus) as Htoken.
  destruct (j <- json_of response ;; getitem j "access_token")%result
    as [token|e]; [|exact Hauth].
  simpl. apply authenticated_empty_iff. simpl. congruence.
Qed.

(** X21. With a server that never answers with status 200 and the empty
    [str] as access token, an authenticated client stays authenticated
    through any sequence of operations, failed authentications
    included. *)
Theorem authenticated_stays ops st :
  no_empty_token transport ->
  authenticated (client st) = true ->
  authenticated
    (client (run_all transport open_rb open_wb py_str json_dumps ops st))
  = true.
Proof.
  intros Htransport. revert st.
  induction ops as [|op ops IH]; intros st Hauth; simpl; [exact Hauth|].
  apply IH. now apply perform_keeps_authenticated.
Qed.
End ServiceFacts.
Lemma status_ignored_witness :
  perform (with_status 500 (answers token_response)) no_files read_only
          str_unreached dumps_unreached (GetAnnotation "a1") fresh
  = perform (answers token_response) no_files read_only
            str_unreached dumps_unreached (GetAnnotation "a1") fresh.
Proof.
  apply (@status_ignored (answers token_response) no_files read_only
           str_unreached dumps_unreached (GetAnnotation "a1") 500 fresh).
  reflexivity.
Defined.
Lemma checked_getter_rejects_witness :
  exists e,
    handle_status error_response = Raise e /\
    fst (perform (answers error_response) no_files read_only str_unreached
                 dumps_unreached (GetAncillaryData "d1") fresh)
    = Raise e /\
    written (snd (perform (answers error_response) no_files read_only
                          str_unreached dumps_unreached
                          (GetAncillaryData "d1") fresh))
    = written fresh.
Proof.
  apply (@checked_getter_rejects no_files read_only str_unreached
           dumps_unreached (GetAncillaryData "d1") error_response fresh).
  - reflexivity.
  - discriminate.
Defined.

Lemma list_getter_elements_witness :
  fst (perform (answers token_response) no_files read_only str_unreached
               dumps_unreached (GetMediaVideo "dive") fresh)
  = Ok (VList [VStr "access_token"]).
Proof.
  destruct (@list_getter_elements no_files read_only str_unreached
              dumps_unreached (GetMediaVideo "dive") Media token_response
              (VDict [("access_token", VStr "jwt2")]) fresh
              eq_refl eq_refl eq_refl) as (_ & _ & Hkeys).
  exact (Hkeys _ eq_refl).
Defined.

Lemma download_writes_any_answer_witness :
  download_framegrab (answers error_response) writable "out.png" "camera"
                     "deployment" "frame" fresh
  = (Ok VNone,
     {| client := client fresh;
        network := network fresh
                   ++ [download_request (client fresh) "camera" "deployment"
                                        "frame"];
        written := dict_set "out.png" (content error_response)
                            (written fresh) |}) /\
  dict_get "out.png"
    (written (snd (download_framegrab (answers error_response) writable
                                      "out.png" "camera" "deployment"
                                      "frame" fresh)))
  = Some (content error_response).
Proof.
  apply (@download_writes_any_answer (answers error_response) writable
           "out.png" "camera" "deployment" "frame" fresh error_response);
    reflexivity.
Defined.

Lemma merge_discards_answer_witness :
  fst (merge_ancillary_data (answers error_response) str_unreached
                            dumps_empty "v1" [datum] 0 logged_in)
  = Ok VNone.
Proof.
  destruct (@merge_discards_answer (answers error_response) str_unreached
              dumps_empty "v1" [datum] 0 logged_in
              [("Authorization", "BEARER jwt")]
              [VDict [("latitude", VInt 36)]] ""
              eq_refl eq_refl eq_refl) as [Hrun _].
  rewrite Hrun. reflexivity.
Defined.

Lemma upload_framegrab_result_witness :
  fst (upload_framegrab (answers token_response) one_image str_unreached
                        "frame.png" "camera" "deployment" "frame" logged_in)
  = Ok (VInstance "ImageParams"
          [("uri", VDict [("access_token", VStr "jwt2")]);
           ("cameraId", VNone); ("deploymentId", VNone); ("name", VNone)]).
Proof.
  apply (@upload_framegrab_result one_image str_unreached "frame.png"
           "camera" "deployment" "frame" logged_in [Byte.x89]
           [("Authorization", "BEARER jwt")] token_response
           (VDict [("access_token", VStr "jwt2")]));
    reflexivity.
Defined.

Lemma collection_needs_data_witness :
  create_ancillary_data_bulk offline str_unreached dumps_empty
                             [datum; VInt 1] logged_in
  = (Raise AttributeError, logged_in) /\
  merge_ancillary_data offline str_unreached dumps_empty "v1"
                       [datum; VInt 1] 5 logged_in
  = (Raise AttributeError, logged_in).
Proof.
  apply (@collection_needs_data offline str_unreached dumps_empty
           [datum; VInt 1] "v1" 5 logged_in
           [("Authorization", "BEARER jwt")]).
  - reflexivity.
  - exists (VInt 1). split; [simpl; tauto|reflexivity].
Defined.

Lemma authenticate_then_create_witness :
  _authorization_header str_unreached
    (client (snd (authenticate (answers token_response) "key" fresh)))
  = Ok [("Authorization", "BEARER jwt2")].
Proof.
  destruct (@authenticate_then_create (answers token_response) str_unreached
              "key" fresh token_response
              [("access_token", VStr "jwt2")] "jwt2"
              eq_refl eq_refl eq_refl eq_refl) as [Hheader _].
  - discriminate.
  - exact Hheader.
Defined.

Lemma authenticate_unusable_body_witness :
  fst (authenticate
         (answers {| status_code := 200; content := []; json_body := None |})
         "key" logged_in)
  = Raise JSONDecodeError.
Proof.
  destruct (@authenticate_unusable_body
              (answers {| status_code := 200; content := [];
                          json_body := None |})
              "key" logged_in
              {| status_code := 200; content := []; json_body := None |}
              eq_refl eq_refl) as [Hnone _].
  exact (Hnone eq_refl).
Defined.

Lemma authenticated_stays_witness :
  authenticated
    (client (run_all (answers token_response) no_files read_only
                     str_unreached dumps_unreached
                     [Authenticate "key"; GetMissionids] logged_in))
  = true.
Proof.
  apply (@authenticated_stays (answers token_response) no_files read_only
           str_unreached dumps_unreached
           [Authenticate "key"; GetMissionids] logged_in).
  - intros sent req response Hanswer _. unfold answers in Hanswer.
    inversion Hanswer. discriminate.
  - reflexivity.
Defined.
